(** * CapsWriter-Offline: the shortcut / event state machine

    A shallow embedding of

      - [util/client/shortcut/emulator.py]          (ShortcutEmulator)
      - [util/client/shortcut/task.py]              (ShortcutTask)
      - [util/client/shortcut/shortcut_manager.py]  (ShortcutManager)
      - [util/client/global_hotkey/global_hotkey.py] (GlobalHotkeyManager)

    Python objects that are mutated in place live in an explicit store;
    methods are computations in a state-and-exception monad, so that a
    Python exception keeps every assignment made before it was raised. *)

From Stdlib Require Import ZArith Lia.
From Stdlib Require Import Ascii String.
From stdpp Require Import base option list gmap strings.

Open Scope Z_scope.
Open Scope string_scope.
Open Scope list_scope.

(** ** Python exceptions and the state-and-exception monad *)

Inductive Exn :=
  | AttributeError (what : string)   (* [None.cancel()] and the like *)
  | KeyError (k : string)
  | Exception (what : string).       (* raised by code outside this package *)

Inductive Result (A : Type) :=
  | Ok (a : A)
  | Raise (e : Exn).
Arguments Ok {A} a.
Arguments Raise {A} e.

Definition is_ok {A} (r : Result A) : bool :=
  match r with Ok _ => true | Raise _ => false end.

Definition M (S A : Type) : Type := S → Result A * S.

Definition ret {S A} (a : A) : M S A := λ s, (Ok a, s).
Definition raise {S A} (e : Exn) : M S A := λ s, (Raise e, s).
Definition bind {S A B} (m : M S A) (k : A → M S B) : M S B :=
  λ s, match m s with
       | (Ok a, s') => k a s'
       | (Raise e, s') => (Raise e, s')
       end.
Definition get {S} : M S S := λ s, (Ok s, s).
Definition gets {S A} (f : S → A) : M S A := λ s, (Ok (f s), s).
Definition modify {S} (f : S → S) : M S unit := λ s, (Ok tt, f s).

(** [if c: body] with no [else]. *)
Definition when {S} (c : bool) (body : M S unit) : M S unit :=
  if c then body else ret tt.

(** [for x in xs: body x]; an exception leaves the loop. *)
Fixpoint for_each {S A} (xs : list A) (body : A → M S unit) : M S unit :=
  match xs with
  | [] => ret tt
  | x :: xs' => bind (body x) (λ _, for_each xs' body)
  end.

(** Run a computation on a component of a larger state. *)
Definition zoom {S T A} (proj : S → T) (put : T → S → S) (m : M T A) : M S A :=
  λ s, let '(r, t') := m (proj s) in (r, put t' s).

(** The monad is registered with stdpp's classes, which gives the notations
    [x ← m; k] and [m ;; k]. *)
#[global] Instance M_ret {S} : MRet (M S) := λ A, @ret S A.
#[global] Instance M_bind {S} : MBind (M S) := λ A B k m, bind m k.

(** ** Data model *)

(** [util.client.shortcut.shortcut_config.Shortcut]: immutable configuration.
    The class itself is outside this package; its two methods are constant
    per instance and are carried as fields. *)
Inductive ShortcutType := keyboard | mouse.

Record Shortcut := {
  key : string;
  type : ShortcutType;
  hold_mode : bool;
  suppress : bool;
  enabled : bool;
  is_toggle_key : bool;          (* shortcut.is_toggle_key() *)
  get_threshold : Z → Z          (* shortcut.get_threshold(default) *)
}.

(** Handle returned by [asyncio.run_coroutine_threadsafe]: an index into the
    table of futures of the event loop. *)
Definition Future := nat.
Inductive FutureState := Running | Cancelled.

(** Items put on [state.queue_in]. *)
Record QueueItem := {
  item_type : string;
  item_time : Z;
  item_data : option string
}.
Definition begin_item (t : Z) : QueueItem :=
  {| item_type := "begin"; item_time := t; item_data := None |}.
Definition finish_item (t : Z) : QueueItem :=
  {| item_type := "finish"; item_time := t; item_data := None |}.

(** [ShortcutTask] instance attributes. *)
Record ShortcutTask := {
  shortcut : Shortcut;
  task : option Future;
  recording_start_time : Z;
  is_recording : bool;
  pressed : bool;
  released : bool;
  event : bool;                         (* threading.Event: is it set *)
  threshold : Z;                        (* assigned by _init_tasks *)
  _status : bool;                       (* spinner running *)
  _toggle_state_at_press : option bool
}.

(** [ShortcutTask.__init__] followed by the three assignments of
    [ShortcutManager._init_tasks]. *)
Definition new_task (sc : Shortcut) (default_threshold : Z) : ShortcutTask :=
  {| shortcut := sc; task := None; recording_start_time := 0;
     is_recording := false; pressed := false; released := true;
     event := false; threshold := get_threshold sc default_threshold;
     _status := false; _toggle_state_at_press := None |}.

(** Jobs handed to [self._pool.submit]. *)
Inductive Job :=
  | JEmulateMouseClick (button_name : string)
  | JDoRestore (k : string).

(** What the code reads from its environment. *)
Record World := {
  system : string;                       (* platform.system() *)
  clock : nat → Z;                       (* the n-th reading of time.time() *)
  is_toggled : string → option bool;     (* keyboard.is_toggled; None = raises *)
  press_and_release_ok : string → bool;  (* keyboard.press_and_release *)
  recorder_ok : bool                     (* does AudioRecorder(state) construct *)
}.

(** Everything a trigger task, the emulator and the event handler can reach:
    the task objects (a store indexed by the key under which the manager
    registered them), the worker pool, the two anti-self-capture sets, the
    client state with its queue, and the environment. *)
Record Core := {
  tasks : gmap string ShortcutTask;
  _pool : list Job;                      (* jobs submitted, oldest first *)
  _pool_shutdown : bool;
  _emulating_keys : gset string;         (* ShortcutEmulator._emulating_keys *)
  _restoring_keys : gset string;
  queue_in : list QueueItem;             (* state.queue_in, oldest first *)
  futures : list FutureState;            (* futures of state.loop *)
  state_recording : option Z;            (* state.start_recording / stop_recording *)
  time_reads : nat;                      (* readings of time.time() so far *)
  os_presses : list string;              (* keys synthesized by the backend *)
  world : World
}.

(** *** Field assignments *)

Definition set_task (v : option Future) (t : ShortcutTask) : ShortcutTask :=
  {| shortcut := shortcut t; task := v;
     recording_start_time := recording_start_time t;
     is_recording := is_recording t; pressed := pressed t;
     released := released t; event := event t; threshold := threshold t;
     _status := _status t;
     _toggle_state_at_press := _toggle_state_at_press t |}.
Definition set_recording_start_time (v : Z) (t : ShortcutTask) : ShortcutTask :=
  {| shortcut := shortcut t; task := task t; recording_start_time := v;
     is_recording := is_recording t; pressed := pressed t;
     released := released t; event := event t; threshold := threshold t;
     _status := _status t;
     _toggle_state_at_press := _toggle_state_at_press t |}.
Definition set_is_recording (v : bool) (t : ShortcutTask) : ShortcutTask :=
  {| shortcut := shortcut t; task := task t;
     recording_start_time := recording_start_time t;
     is_recording := v; pressed := pressed t;
     released := released t; event := event t; threshold := threshold t;
     _status := _status t;
     _toggle_state_at_press := _toggle_state_at_press t |}.
Definition set_pressed (v : bool) (t : ShortcutTask) : ShortcutTask :=
  {| shortcut := shortcut t; task := task t;
     recording_start_time := recording_start_time t;
     is_recording := is_recording t; pressed := v;
     released := released t; event := event t; threshold := threshold t;
     _status := _status t;
     _toggle_state_at_press := _toggle_state_at_press t |}.
Definition set_released (v : bool) (t : ShortcutTask) : ShortcutTask :=
  {| shortcut := shortcut t; task := task t;
     recording_start_time := recording_start_time t;
     is_recording := is_recording t; pressed := pressed t;
     released := v; event := event t; threshold := threshold t;
     _status := _status t;
     _toggle_state_at_press := _toggle_state_at_press t |}.
Definition set_event (v : bool) (t : ShortcutTask) : ShortcutTask :=
  {| shortcut := shortcut t; task := task t;
     recording_start_time := recording_start_time t;
     is_recording := is_recording t; pressed := pressed t;
     released := released t; event := v; threshold := threshold t;
     _status := _status t;
     _toggle_state_at_press := _toggle_state_at_press t |}.
Definition set__status (v : bool) (t : ShortcutTask) : ShortcutTask :=
  {| shortcut := shortcut t; task := task t;
     recording_start_time := recording_start_time t;
     is_recording := is_recording t; pressed := pressed t;
     released := released t; event := event t; threshold := threshold t;
     _status := v;
     _toggle_state_at_press := _toggle_state_at_press t |}.
Definition set__toggle_state_at_press (v : option bool) (t : ShortcutTask)
  : ShortcutTask :=
  {| shortcut := shortcut t; task := task t;
     recording_start_time := recording_start_time t;
     is_recording := is_recording t; pressed := pressed t;
     released := released t; event := event t; threshold := threshold t;
     _status := _status t;
     _toggle_state_at_press := v |}.

Definition set_tasks (f : gmap string ShortcutTask → gmap string ShortcutTask)
  (c : Core) : Core :=
  {| tasks := f (tasks c); _pool := _pool c; _pool_shutdown := _pool_shutdown c;
     _emulating_keys := _emulating_keys c; _restoring_keys := _restoring_keys c;
     queue_in := queue_in c; futures := futures c;
     state_recording := state_recording c; time_reads := time_reads c;
     os_presses := os_presses c; world := world c |}.
Definition set__pool (f : list Job → list Job) (c : Core) : Core :=
  {| tasks := tasks c; _pool := f (_pool c); _pool_shutdown := _pool_shutdown c;
     _emulating_keys := _emulating_keys c; _restoring_keys := _restoring_keys c;
     queue_in := queue_in c; futures := futures c;
     state_recording := state_recording c; time_reads := time_reads c;
     os_presses := os_presses c; world := world c |}.
Definition set__pool_shutdown (v : bool) (c : Core) : Core :=
  {| tasks := tasks c; _pool := _pool c; _pool_shutdown := v;
     _emulating_keys := _emulating_keys c; _restoring_keys := _restoring_keys c;
     queue_in := queue_in c; futures := futures c;
     state_recording := state_recording c; time_reads := time_reads c;
     os_presses := os_presses c; world := world c |}.
Definition set__emulating_keys (f : gset string → gset string) (c : Core) : Core :=
  {| tasks := tasks c; _pool := _pool c; _pool_shutdown := _pool_shutdown c;
     _emulating_keys := f (_emulating_keys c);
     _restoring_keys := _restoring_keys c;
     queue_in := queue_in c; futures := futures c;
     state_recording := state_recording c; time_reads := time_reads c;
     os_presses := os_presses c; world := world c |}.
Definition set__restoring_keys (f : gset string → gset string) (c : Core) : Core :=
  {| tasks := tasks c; _pool := _pool c; _pool_shutdown := _pool_shutdown c;
     _emulating_keys := _emulating_keys c;
     _restoring_keys := f (_restoring_keys c);
     queue_in := queue_in c; futures := futures c;
     state_recording := state_recording c; time_reads := time_reads c;
     os_presses := os_presses c; world := world c |}.
Definition set_queue_in (f : list QueueItem → list QueueItem) (c : Core) : Core :=
  {| tasks := tasks c; _pool := _pool c; _pool_shutdown := _pool_shutdown c;
     _emulating_keys := _emulating_keys c; _restoring_keys := _restoring_keys c;
     queue_in := f (queue_in c); futures := futures c;
     state_recording := state_recording c; time_reads := time_reads c;
     os_presses := os_presses c; world := world c |}.
Definition set_futures (f : list FutureState → list FutureState) (c : Core) : Core :=
  {| tasks := tasks c; _pool := _pool c; _pool_shutdown := _pool_shutdown c;
     _emulating_keys := _emulating_keys c; _restoring_keys := _restoring_keys c;
     queue_in := queue_in c; futures := f (futures c);
     state_recording := state_recording c; time_reads := time_reads c;
     os_presses := os_presses c; world := world c |}.
Definition set_state_recording (v : option Z) (c : Core) : Core :=
  {| tasks := tasks c; _pool := _pool c; _pool_shutdown := _pool_shutdown c;
     _emulating_keys := _emulating_keys c; _restoring_keys := _restoring_keys c;
     queue_in := queue_in c; futures := futures c;
     state_recording := v; time_reads := time_reads c;
     os_presses := os_presses c; world := world c |}.
Definition set_time_reads (f : nat → nat) (c : Core) : Core :=
  {| tasks := tasks c; _pool := _pool c; _pool_shutdown := _pool_shutdown c;
     _emulating_keys := _emulating_keys c; _restoring_keys := _restoring_keys c;
     queue_in := queue_in c; futures := futures c;
     state_recording := state_recording c; time_reads := f (time_reads c);
     os_presses := os_presses c; world := world c |}.
Definition set_os_presses (f : list string → list string) (c : Core) : Core :=
  {| tasks := tasks c; _pool := _pool c; _pool_shutdown := _pool_shutdown c;
     _emulating_keys := _emulating_keys c; _restoring_keys := _restoring_keys c;
     queue_in := queue_in c; futures := futures c;
     state_recording := state_recording c; time_reads := time_reads c;
     os_presses := f (os_presses c); world := world c |}.

(** *** The manager *)

(** A pynput listener: is it running, and how many events it was asked to
    suppress. *)
Record Listener := {
  listener_running : bool;
  suppress_calls : nat
}.

(** Registrations returned by the keyboard library. *)
Inductive Hook :=
  | OnPressKey (lib_name key_name : string) (suppress_ : bool)
  | OnReleaseKey (lib_name key_name : string) (suppress_ : bool)
  | HookAll.

(** An entry of [_combo_defs]: the dict
    [{'key': .., 'keys': .., 'active': .., 'suppress': ..}]. *)
Record Combo := {
  combo_key : string;
  combo_keys : gset string;
  combo_active : bool;
  combo_suppress : bool
}.

Inductive Dir := Down | Up.

(** [ShortcutManager] instance attributes, followed by two ghost logs that
    the code does not have: [routed] records every call that hands an event
    to a trigger task ([handle_keydown], [handle_keyup],
    [_handle_mouse_keyup]); [fired] records every synthetic chord event
    ([_keyboard_keydown] / [_keyboard_keyup] called from the chord hook). *)
Record ShortcutManager := {
  shortcuts : list Shortcut;
  _is_windows : bool;
  keyboard_listener : option Listener;
  mouse_listener : option Listener;
  _keyboard_hooks : list Hook;
  _combo_hook : option Hook;
  _pressed_keys : gset string;
  _combo_defs : list Combo;
  core : Core;
  routed : list (Dir * string);
  fired : list (Dir * string)
}.

Definition set_keyboard_listener (f : option Listener → option Listener) (m : ShortcutManager)
  : ShortcutManager :=
  {| shortcuts := shortcuts m; _is_windows := _is_windows m;
     keyboard_listener := f (keyboard_listener m);
     mouse_listener := mouse_listener m;
     _keyboard_hooks := _keyboard_hooks m; _combo_hook := _combo_hook m;
     _pressed_keys := _pressed_keys m; _combo_defs := _combo_defs m;
     core := core m; routed := routed m; fired := fired m |}.
Definition set_mouse_listener (f : option Listener → option Listener) (m : ShortcutManager)
  : ShortcutManager :=
  {| shortcuts := shortcuts m; _is_windows := _is_windows m;
     keyboard_listener := keyboard_listener m;
     mouse_listener := f (mouse_listener m);
     _keyboard_hooks := _keyboard_hooks m; _combo_hook := _combo_hook m;
     _pressed_keys := _pressed_keys m; _combo_defs := _combo_defs m;
     core := core m; routed := routed m; fired := fired m |}.
Definition set__keyboard_hooks (f : list Hook → list Hook) (m : ShortcutManager)
  : ShortcutManager :=
  {| shortcuts := shortcuts m; _is_windows := _is_windows m;
     keyboard_listener := keyboard_listener m;
     mouse_listener := mouse_listener m;
     _keyboard_hooks := f (_keyboard_hooks m); _combo_hook := _combo_hook m;
     _pressed_keys := _pressed_keys m; _combo_defs := _combo_defs m;
     core := core m; routed := routed m; fired := fired m |}.
Definition set__combo_hook (f : option Hook → option Hook) (m : ShortcutManager)
  : ShortcutManager :=
  {| shortcuts := shortcuts m; _is_windows := _is_windows m;
     keyboard_listener := keyboard_listener m;
     mouse_listener := mouse_listener m;
     _keyboard_hooks := _keyboard_hooks m; _combo_hook := f (_combo_hook m);
     _pressed_keys := _pressed_keys m; _combo_defs := _combo_defs m;
     core := core m; routed := routed m; fired := fired m |}.
Definition set__pressed_keys (f : gset string → gset string) (m : ShortcutManager)
  : ShortcutManager :=
  {| shortcuts := shortcuts m; _is_windows := _is_windows m;
     keyboard_listener := keyboard_listener m;
     mouse_listener := mouse_listener m;
     _keyboard_hooks := _keyboard_hooks m; _combo_hook := _combo_hook m;
     _pressed_keys := f (_pressed_keys m); _combo_defs := _combo_defs m;
     core := core m; routed := routed m; fired := fired m |}.
Definition set__combo_defs (f : list Combo → list Combo) (m : ShortcutManager)
  : ShortcutManager :=
  {| shortcuts := shortcuts m; _is_windows := _is_windows m;
     keyboard_listener := keyboard_listener m;
     mouse_listener := mouse_listener m;
     _keyboard_hooks := _keyboard_hooks m; _combo_hook := _combo_hook m;
     _pressed_keys := _pressed_keys m; _combo_defs := f (_combo_defs m);
     core := core m; routed := routed m; fired := fired m |}.
Definition set_core (f : Core → Core) (m : ShortcutManager)
  : ShortcutManager :=
  {| shortcuts := shortcuts m; _is_windows := _is_windows m;
     keyboard_listener := keyboard_listener m;
     mouse_listener := mouse_listener m;
     _keyboard_hooks := _keyboard_hooks m; _combo_hook := _combo_hook m;
     _pressed_keys := _pressed_keys m; _combo_defs := _combo_defs m;
     core := f (core m); routed := routed m; fired := fired m |}.
Definition set_routed (f : list (Dir * string) → list (Dir * string)) (m : ShortcutManager)
  : ShortcutManager :=
  {| shortcuts := shortcuts m; _is_windows := _is_windows m;
     keyboard_listener := keyboard_listener m;
     mouse_listener := mouse_listener m;
     _keyboard_hooks := _keyboard_hooks m; _combo_hook := _combo_hook m;
     _pressed_keys := _pressed_keys m; _combo_defs := _combo_defs m;
     core := core m; routed := f (routed m); fired := fired m |}.

(** ** Interfaces of modules outside this package *)

(** [util.client.shortcut.key_mapper]: the message constants brought in by
    [from ... import *] and the two [KeyMapper] translations that are used.
    An unmapped virtual-key code has no name. *)
Class KeyMapper := {
  WM_KEYUP : Z;
  WM_SYSKEYUP : Z;
  WM_XBUTTONDOWN : Z;
  WM_XBUTTONUP : Z;
  XBUTTON1 : Z;
  KEYBOARD_MESSAGES : list Z;
  KEY_DOWN_MESSAGES : list Z;
  KEY_UP_MESSAGES : list Z;
  MOUSE_MESSAGES : list Z;
  vk_to_name : Z → option string;
  internal_to_keyboard_lib_name : string → string
}.

(** [util.client.shortcut.event_handler.ShortcutEventHandler], built from
    [(self.tasks, self._pool, self._emulator)]: it can change the [Core] and
    nothing else.  The task object it is passed is [self.tasks[key_name]],
    so the store index [key_name] identifies it. *)
Class ShortcutEventHandler := {
  handle_keydown : string → M Core unit;
  handle_keyup : string → M Core unit
}.

(** Python's [str.lower]. *)
Class StrLower := str_lower : string → string.

Section Code.
Context {KM : KeyMapper} {EH : ShortcutEventHandler} {SL : StrLower}.

(** ** Primitives of the runtime *)

(** [time.time()]: the next reading of the clock. *)
Definition time_time : M Core Z :=
  c ← get;
  modify (set_time_reads S);;
  mret (clock (world c) (time_reads c)).

(** [asyncio.run_coroutine_threadsafe(self.state.queue_in.put(item), loop)]:
    the puts reach the queue in the order of the calls. *)
Definition queue_put (item : QueueItem) : M Core unit :=
  modify (set_queue_in (λ q, q ++ [item])).

(** [asyncio.run_coroutine_threadsafe(recorder.record_and_send(), loop)]. *)
Definition run_record_and_send : M Core Future :=
  c ← get;
  modify (set_futures (λ fs, fs ++ [Running]));;
  mret (length (futures c)).

(** [future.cancel()]. *)
Definition future_cancel (f : Future) : M Core unit :=
  modify (set_futures (λ fs, <[f := Cancelled]> fs)).

(** [self._pool.submit(job)]. *)
Definition submit (j : Job) : M Core unit :=
  modify (set__pool (λ js, js ++ [j])).

(** [bool(keyboard_lib.is_toggled(lib_name))] under [try ... except: None]. *)
Definition read_toggled (k : string) : M Core (option bool) :=
  w ← gets world;
  mret (is_toggled w (internal_to_keyboard_lib_name k)).

Definition on_windows : M Core bool :=
  w ← gets world; mret (String.eqb (system w) "Windows").

(** ** emulator.py: ShortcutEmulator *)

Definition is_emulating (key_name : string) : M Core bool :=
  gets (λ c, bool_decide (key_name ∈ _emulating_keys c)).

Definition clear_emulating_flag (key_name : string) : M Core unit :=
  modify (set__emulating_keys (λ s, s ∖ {[key_name]})).

Definition emulate_key (key_name : string) : M Core unit :=
  modify (set__emulating_keys (λ s, s ∪ {[key_name]}));;
  let lib_name := internal_to_keyboard_lib_name key_name in
  w ← gets world;
  (* try: keyboard_lib.press_and_release(lib_name)  except: warning *)
  when (press_and_release_ok w lib_name)
       (modify (set_os_presses (λ l, l ++ [lib_name]))).

Definition emulate_mouse_click (button_name : string) : M Core unit :=
  modify (set__emulating_keys (λ s, s ∪ {[button_name]})).
  (* logger.warning(...): the click itself is skipped *)

(** ** shortcut_manager.py: restore bookkeeping *)

Definition is_restoring (k : string) : M Core bool :=
  gets (λ c, bool_decide (k ∈ _restoring_keys c)).

Definition clear_restoring_flag (k : string) : M Core unit :=
  modify (set__restoring_keys (λ s, s ∖ {[k]})).

Definition schedule_restore (k : string) : M Core unit :=
  modify (set__restoring_keys (λ s, s ∪ {[k]}));;
  submit (JDoRestore k).

(** The closure [do_restore] of [schedule_restore], as run by a worker after
    its 50 ms sleep. *)
Definition do_restore (k : string) : M Core unit :=
  emulate_key k;;
  clear_restoring_flag k.

(** A worker thread runs one job. *)
Definition run_job (j : Job) : M Core unit :=
  match j with
  | JEmulateMouseClick b => emulate_mouse_click b
  | JDoRestore k => do_restore k
  end.

(** ** task.py: ShortcutTask

    [self] is the task stored under [k]. *)

Definition self_ (k : string) : M Core ShortcutTask :=
  λ c, match tasks c !! k with
       | Some t => (Ok t, c)
       | None => (Raise (KeyError k), c)
       end.

(** [self.<field> = v]. *)
Definition assign (k : string) (f : ShortcutTask → ShortcutTask) : M Core unit :=
  modify (set_tasks (alter f k)).

(** [_get_recorder()]: imports and constructs the [AudioRecorder]. *)
Definition _get_recorder : M Core unit :=
  w ← gets world;
  if recorder_ok w return M Core unit then mret tt
  else raise (Exception "AudioRecorder").

(** [_restore_key]: [self._manager_ref] is the [lambda: self] installed by
    [ShortcutManager._init_tasks], so [manager] is the manager itself and the
    [else] branch (reference lost) is not taken. *)
Definition _restore_key (k : string) : M Core unit :=
  t ← self_ k;
  schedule_restore (key (shortcut t)).

Definition _restore_key_if_needed (k : string) : M Core unit :=
  t ← self_ k;
  win ← on_windows;
  if (win : bool) return M Core unit then
    when (negb (suppress (shortcut t))) (_restore_key k)
  else
    current ← read_toggled (key (shortcut t));
    match _toggle_state_at_press t, current return M Core unit with
    | Some at_press, Some cur =>
        when (negb (Bool.eqb cur at_press)) (_restore_key k)
    | _, _ => _restore_key k
    end.

Definition launch (k : string) : M Core unit :=
  t ← self_ k;
  win ← on_windows;
  when (is_toggle_key (shortcut t) && negb win)
       (snap ← read_toggled (key (shortcut t));
        assign k (set__toggle_state_at_press snap));;
  now ← time_time;
  assign k (set_recording_start_time now);;
  assign k (set_is_recording true);;
  queue_put (begin_item now);;
  modify (set_state_recording (Some now));;
  assign k (set__status true);;
  _get_recorder;;
  fut ← run_record_and_send;
  assign k (set_task (Some fut)).

Definition cancel (k : string) : M Core unit :=
  assign k (set_is_recording false);;
  modify (set_state_recording None);;
  assign k (set__status false);;
  t ← self_ k;
  match task t return M Core unit with
  | Some fut => future_cancel fut
  | None => raise (AttributeError "'NoneType' object has no attribute 'cancel'")
  end;;
  assign k (set_task None);;
  when (is_toggle_key (shortcut t)) (_restore_key_if_needed k).

Definition finish (k : string) : M Core unit :=
  assign k (set_is_recording false);;
  modify (set_state_recording None);;
  assign k (set__status false);;
  now ← time_time;
  queue_put (finish_item now);;
  t ← self_ k;
  when (is_toggle_key (shortcut t)) (_restore_key_if_needed k).

(** ** shortcut_manager.py: ShortcutManager *)

(** A method of the emulator, of a task or of the event handler, called
    from the manager. *)
Definition in_core {A} (m : M Core A) : M ShortcutManager A :=
  zoom core (λ c, set_core (λ _, c)) m.

Definition route (d : Dir) (k : string) : M ShortcutManager unit :=
  modify (set_routed (λ l, l ++ [(d, k)])).


(** [listener.suppress_event()]. *)
Definition suppress_event (l : Listener) : Listener :=
  {| listener_running := listener_running l;
     suppress_calls := S (suppress_calls l) |}.

(** [_init_tasks]: one task per enabled shortcut, later entries with the
    same key replacing earlier ones.  [default_threshold] is
    [Config.threshold]. *)
Definition _init_tasks (default_threshold : Z) (scs : list Shortcut)
  : gmap string ShortcutTask :=
  foldl (λ ts sc,
           if enabled sc then <[key sc := new_task sc default_threshold]> ts
           else ts)
        ∅ scs.

(** [ShortcutManager.__init__]. *)
Definition init_manager (w : World) (default_threshold : Z)
  (scs : list Shortcut) : ShortcutManager :=
  {| shortcuts := scs;
     _is_windows := String.eqb (system w) "Windows";
     keyboard_listener := None; mouse_listener := None;
     _keyboard_hooks := []; _combo_hook := None;
     _pressed_keys := ∅; _combo_defs := [];
     core := {| tasks := _init_tasks default_threshold scs;
                _pool := []; _pool_shutdown := false;
                _emulating_keys := ∅; _restoring_keys := ∅;
                queue_in := []; futures := []; state_recording := None;
                time_reads := 0%nat; os_presses := []; world := w |};
     routed := []; fired := [] |}.

(** *** Anti-self-capture checks *)

Definition _check_emulating (key_name : string) (msg : Z) (is_mouse : bool)
  : M ShortcutManager bool :=
  emu ← in_core (is_emulating key_name);
  if negb emu return M ShortcutManager bool then mret false
  else
    (if is_mouse then
       when (Z.eqb msg WM_XBUTTONUP)
            (in_core (clear_emulating_flag key_name))
     else
       when (bool_decide (msg ∈ [WM_KEYUP; WM_SYSKEYUP]))
            (in_core (clear_emulating_flag key_name)));;
    mret true.

Definition _check_restoring (key_name : string) (msg : Z)
  : M ShortcutManager bool :=
  res ← in_core (is_restoring key_name);
  if negb res return M ShortcutManager bool then mret false
  else
    when (bool_decide (msg ∈ [WM_KEYUP; WM_SYSKEYUP]))
         (in_core (clear_restoring_flag key_name));;
    mret true.

(** *** Mouse release *)

Definition _handle_mouse_keyup (button_name : string) : M Core unit :=
  task_ ← self_ button_name;
  if negb (hold_mode (shortcut task_)) return M Core unit then
    (* click mode *)
    when (pressed task_)
         (assign button_name (set_pressed false);;
          assign button_name (set_released true);;
          assign button_name (set_event true))
  else if negb (is_recording task_) return M Core unit then mret tt
  else
    now ← time_time;
    let duration := now - recording_start_time task_ in
    if (duration <? threshold task_)%Z return M Core unit then
      cancel button_name;;
      when (suppress (shortcut task_))
           (submit (JEmulateMouseClick button_name))
    else
      finish button_name.

(** *** The two Windows filters

    [create_keyboard_filter] and [create_mouse_filter] stand for the closure
    [win32_event_filter] that each of them returns.  [msg] and the field of
    [data] that is read are the arguments; the result is the value returned
    to pynput. *)

Definition create_keyboard_filter (msg vkCode : Z) : M ShortcutManager bool :=
  if negb (bool_decide (msg ∈ KEYBOARD_MESSAGES)) return M ShortcutManager bool
  then mret true
  else
    match vk_to_name vkCode return M ShortcutManager bool with
    | None =>
        (* no name: in no set and not a key of [tasks] *)
        mret true
    | Some key_name =>
        emu ← _check_emulating key_name msg false;
        if (emu : bool) return M ShortcutManager bool then mret true
        else
          res ← _check_restoring key_name msg;
          if (res : bool) return M ShortcutManager bool then mret true
          else
            m ← get;
            match tasks (core m) !! key_name return M ShortcutManager bool with
            | None => mret true
            | Some task_ =>
                (if bool_decide (msg ∈ KEY_DOWN_MESSAGES) then
                   route Down key_name;;
                   in_core (handle_keydown key_name)
                 else if bool_decide (msg ∈ KEY_UP_MESSAGES) then
                   route Up key_name;;
                   in_core (handle_keyup key_name)
                 else mret tt);;
                m' ← get;
                when (suppress (shortcut task_)
                      && bool_decide (is_Some (keyboard_listener m')))
                     (modify (set_keyboard_listener (fmap suppress_event)));;
                mret true
            end
    end.

(** [xbutton = (data.mouseData >> 16) & 0xFFFF] and the name chosen from
    it. *)
Definition xbutton_name (mouseData : Z) : string :=
  let xbutton := Z.land (Z.shiftr mouseData 16) 65535 in
  if Z.eqb xbutton XBUTTON1 then "x1" else "x2".

Definition create_mouse_filter (msg mouseData : Z) : M ShortcutManager bool :=
  if negb (bool_decide (msg ∈ MOUSE_MESSAGES)) return M ShortcutManager bool
  then mret true
  else
    let button_name := xbutton_name mouseData in
    emu ← _check_emulating button_name msg true;
    if (emu : bool) return M ShortcutManager bool then mret true
    else
      m ← get;
      match tasks (core m) !! button_name return M ShortcutManager bool with
      | None => mret true
      | Some task_ =>
          (if Z.eqb msg WM_XBUTTONDOWN then
             route Down button_name;;
             in_core (handle_keydown button_name)
           else if Z.eqb msg WM_XBUTTONUP then
             route Up button_name;;
             in_core (_handle_mouse_keyup button_name)
           else mret tt);;
          m' ← get;
          when (suppress (shortcut task_)
                && bool_decide (is_Some (mouse_listener m')))
               (modify (set_mouse_listener (fmap suppress_event)));;
          mret true
      end.

(** *** Callbacks used outside Windows *)

Definition _keyboard_keydown (key_name : string) : M ShortcutManager unit :=
  emu ← in_core (is_emulating key_name);
  if (emu : bool) return M ShortcutManager unit then mret tt
  else
    res ← in_core (is_restoring key_name);
    if (res : bool) return M ShortcutManager unit then mret tt
    else
      m ← get;
      match tasks (core m) !! key_name return M ShortcutManager unit with
      | None => mret tt
      | Some _ =>
          route Down key_name;;
          in_core (handle_keydown key_name)
      end.

Definition _keyboard_keyup (key_name : string) : M ShortcutManager unit :=
  emu ← in_core (is_emulating key_name);
  if (emu : bool) return M ShortcutManager unit then
    in_core (clear_emulating_flag key_name)
  else
    res ← in_core (is_restoring key_name);
    if (res : bool) return M ShortcutManager unit then
      in_core (clear_restoring_flag key_name)
    else
      m ← get;
      match tasks (core m) !! key_name return M ShortcutManager unit with
      | None => mret tt
      | Some _ =>
          route Up key_name;;
          in_core (handle_keyup key_name)
      end.

(** *** Chords on top of single-key hooks *)


(** The dict appended to [_combo_defs]. *)
Definition new_combo (k : string) (ks : gset string) (sup : bool) : Combo :=
  {| combo_key := k; combo_keys := ks; combo_active := false;
     combo_suppress := sup |}.




(** [key.split('+')], [p.strip()] (ASCII white space) and ['+' in key]. *)
Fixpoint split_plus (s : string) : list string :=
  match s with
  | EmptyString => [""]
  | String a r =>
      if Ascii.eqb a "+"%char then "" :: split_plus r
      else match split_plus r with
           | [] => [String a ""]
           | p :: ps => String a p :: ps
           end
  end.

Definition is_space (a : Ascii.ascii) : bool :=
  let n := Ascii.nat_of_ascii a in
  ((9 <=? n) && (n <=? 13) || (28 <=? n) && (n <=? 32))%nat.

Fixpoint lstrip (s : string) : string :=
  match s with
  | String a r => if is_space a then lstrip r else s
  | EmptyString => EmptyString
  end.

Definition strip (s : string) : string :=
  String.rev (lstrip (String.rev (lstrip s))).

Fixpoint has_plus (s : string) : bool :=
  match s with
  | EmptyString => false
  | String a r => Ascii.eqb a "+"%char || has_plus r
  end.

Definition non_empty (s : string) : bool :=
  match s with EmptyString => false | _ => true end.

(** The set comprehension of [_setup_keyboard_lib_hooks]. *)
Definition chord_keys (k : string) : gset string :=
  let parts := filter (λ p, non_empty p = true) (strip <$> split_plus k) in
  list_to_set (internal_to_keyboard_lib_name <$> parts).

(** The loop body of [_setup_keyboard_lib_hooks] for one shortcut, on the
    pair (hooks, combos) built so far. *)
Definition setup_shortcut (acc : list Hook * list Combo) (sc : Shortcut)
  : list Hook * list Combo :=
  let '(hooks, combos) := acc in
  if negb (enabled sc) then acc
  else match type sc with
       | mouse => acc
       | keyboard =>
           if has_plus (key sc) then
             (hooks,
              combos ++ [new_combo (key sc) (chord_keys (key sc)) (suppress sc)])
           else
             let lib_name := internal_to_keyboard_lib_name (key sc) in
             (hooks ++ [OnPressKey lib_name (key sc) (suppress sc);
                        OnReleaseKey lib_name (key sc) (suppress sc)],
              combos)
       end.

Definition _setup_keyboard_lib_hooks : M ShortcutManager unit :=
  m ← get;
  let '(hooks, combos) := foldl setup_shortcut ([], []) (shortcuts m) in
  modify (set__keyboard_hooks (λ _, hooks));;
  modify (set__combo_defs (λ _, combos));;
  modify (set__pressed_keys (λ _, ∅));;
  modify (set__combo_hook
            (λ _, match combos with [] => None | _ => Some HookAll end)).

(** *** Shutdown *)

Definition stop_listener (l : Listener) : Listener :=
  {| listener_running := false; suppress_calls := suppress_calls l |}.

(** The first half of [stop]: stop the listeners, or unhook. *)
Definition release_listeners : M ShortcutManager unit :=
  m ← get;
  if _is_windows m return M ShortcutManager unit then
    modify (set_keyboard_listener (fmap stop_listener));;
    modify (set_mouse_listener (fmap stop_listener))
  else
    (* errors of [unhook] are passed over *)
    modify (set__keyboard_hooks (λ _, []));;
    modify (set__combo_hook (λ _, None)).

(** The body of [for task in self.tasks.values()]. *)
Definition stop_round (kt : string * ShortcutTask) : M ShortcutManager unit :=
  t ← in_core (self_ kt.1);
  when (is_recording t) (in_core (cancel kt.1)).

(** The tasks are visited in the order of the map's keys, the code visits
    them in the order of registration: which task is cancelled first
    differs, whether a [cancel] raises does not. *)
Definition stop : M ShortcutManager unit :=
  release_listeners;;
  m ← get;
  for_each (map_to_list (tasks (core m))) stop_round;;
  in_core (modify (set__pool_shutdown true)).

(** *** Startup *)

(** [any(s.type == ty for s in self.shortcuts if s.enabled)]. *)
Definition has_enabled (ty : ShortcutType) (scs : list Shortcut) : bool :=
  existsb (λ s, enabled s
                && match type s, ty with
                   | keyboard, keyboard | mouse, mouse => true
                   | _, _ => false
                   end) scs.

(** [Listener(win32_event_filter=...)] followed by [.start()]. *)
Definition started_listener : Listener :=
  {| listener_running := true; suppress_calls := 0 |}.

(** [start], up to the log lines that end it.  Outside Windows the mouse
    shortcuts only produce a warning. *)
Definition start : M ShortcutManager unit :=
  m ← get;
  let has_keyboard := has_enabled keyboard (shortcuts m) in
  let has_mouse := has_enabled mouse (shortcuts m) in
  if _is_windows m return M ShortcutManager unit then
    when has_keyboard
         (modify (set_keyboard_listener (λ _, Some started_listener)));;
    when has_mouse
         (modify (set_mouse_listener (λ _, Some started_listener)))
  else
    when has_keyboard _setup_keyboard_lib_hooks.

End Code.

(** ** global_hotkey.py: GlobalHotkeyManager

    Registered hotkeys and their handles are Python dicts, kept here as
    association lists in insertion order.  The keyboard library is its table
    of hotkeys; whether [add_hotkey] accepts a hotkey string is read from
    the environment.  No method lets an exception out: the two library
    calls sit in [try ... except]. *)

Module GlobalHotkey.

Definition Callback := nat.
Definition Handle := nat.

(** *** Python dicts with string keys *)

Fixpoint dict_get {V} (k : string) (d : list (string * V)) : option V :=
  match d with
  | [] => None
  | (k', v) :: d' => if String.eqb k k' then Some v else dict_get k d'
  end.

(** [d[k] = v]: an existing key keeps its place. *)
Fixpoint dict_set {V} (k : string) (v : V) (d : list (string * V))
  : list (string * V) :=
  match d with
  | [] => [(k, v)]
  | (k', v') :: d' =>
      if String.eqb k k' then (k, v) :: d' else (k', v') :: dict_set k v d'
  end.

(** [del d[k]]. *)
Definition dict_del {V} (k : string) (d : list (string * V))
  : list (string * V) :=
  List.filter (λ kv, negb (String.eqb k kv.1)) d.

(** *** Python's [str.replace] for a non-empty [old] *)

Fixpoint starts_with (p s : string) : bool :=
  match p, s with
  | EmptyString, _ => true
  | String a p', String b s' => Ascii.eqb a b && starts_with p' s'
  | String _ _, EmptyString => false
  end.

(** [skip] characters of an occurrence just replaced are still to be
    passed over. *)
Fixpoint replace_from (old new : string) (skip : nat) (s : string) : string :=
  match s with
  | EmptyString => EmptyString
  | String a r =>
      match skip with
      | S n => replace_from old new n r
      | O =>
          if starts_with old s
          then new +:+ replace_from old new (String.length old - 1) r
          else String a (replace_from old new 0 r)
      end
  end.

Definition str_replace (old new s : string) : string :=
  replace_from old new 0 s.

(** *** The keyboard library *)

Record KeyboardLib := {
  lib_hotkeys : list (Handle * (string * Callback));
  next_handle : Handle;
  add_hotkey_ok : string → bool
}.

(** [keyboard_lib.add_hotkey(hotkey, cb, ...)]: the handle, or [None] when
    the call raises. *)
Definition add_hotkey (hotkey : string) (cb : Callback) (l : KeyboardLib)
  : option Handle * KeyboardLib :=
  if add_hotkey_ok l hotkey then
    (Some (next_handle l),
     {| lib_hotkeys := lib_hotkeys l ++ [(next_handle l, (hotkey, cb))];
        next_handle := S (next_handle l);
        add_hotkey_ok := add_hotkey_ok l |})
  else (None, l).

(** [keyboard_lib.remove_hotkey(handle)] under [try ... except: pass]: an
    unknown handle changes nothing. *)
Definition remove_hotkey (h : Handle) (l : KeyboardLib) : KeyboardLib :=
  {| lib_hotkeys := List.filter (λ e, negb (Nat.eqb h e.1)) (lib_hotkeys l);
     next_handle := next_handle l;
     add_hotkey_ok := add_hotkey_ok l |}.

(** *** The manager *)

Record GlobalHotkeyManager := {
  _hotkeys : list (string * Callback);
  _handles : list (string * Handle);
  _running : bool;
  keyboard_lib : KeyboardLib
}.

(** [__init__] on a new instance. *)
Definition new_manager (l : KeyboardLib) : GlobalHotkeyManager :=
  {| _hotkeys := []; _handles := []; _running := false; keyboard_lib := l |}.

Definition _normalize_hotkey {SL : StrLower} (key_str : string) : string :=
  let key_str := str_lower (strip key_str) in
  if String.eqb key_str "" then ""
  else
    let key_str := str_replace ">" "" (str_replace "<" "" key_str) in
    let key_str := str_replace "cmd" "windows" key_str in
    let key_str := str_replace "command" "windows" key_str in
    let key_str := str_replace "control" "ctrl" key_str in
    let key_str := str_replace " " "" key_str in
    let key_str := str_replace "+" "+" key_str in
    key_str.

(** The body of the loop of [_start_listener]. *)
Definition start_one {SL : StrLower} (s : GlobalHotkeyManager)
  (kc : string * Callback) : GlobalHotkeyManager :=
  let normalized := _normalize_hotkey kc.1 in
  if String.eqb normalized "" then s
  else match add_hotkey normalized kc.2 (keyboard_lib s) with
       | (Some handle, l) =>
           {| _hotkeys := _hotkeys s;
              _handles := dict_set kc.1 handle (_handles s);
              _running := _running s; keyboard_lib := l |}
       | (None, _) => s
       end.

Definition _start_listener {SL : StrLower} (s : GlobalHotkeyManager)
  : GlobalHotkeyManager :=
  match _hotkeys s with
  | [] => s
  | hs => foldl start_one s hs
  end.

(** The first half of [stop] and of [_restart_listener]: every handle is
    removed from the library, then [_handles] is cleared. *)
Definition remove_handles (s : GlobalHotkeyManager) : GlobalHotkeyManager :=
  {| _hotkeys := _hotkeys s; _handles := []; _running := _running s;
     keyboard_lib :=
       foldl (λ l kh, remove_hotkey kh.2 l) (keyboard_lib s) (_handles s) |}.

Definition _restart_listener {SL : StrLower} (s : GlobalHotkeyManager)
  : GlobalHotkeyManager :=
  let s1 := remove_handles s in
  if _running s1 && match _hotkeys s1 with [] => false | _ => true end
  then _start_listener s1 else s1.

Definition register {SL : StrLower} (key_str : string) (callback : Callback)
  (s : GlobalHotkeyManager) : GlobalHotkeyManager :=
  let s1 := {| _hotkeys := dict_set key_str callback (_hotkeys s);
               _handles := _handles s; _running := _running s;
               keyboard_lib := keyboard_lib s |} in
  if _running s1 then _restart_listener s1 else s1.

Definition unregister {SL : StrLower} (key_str : string)
  (s : GlobalHotkeyManager) : bool * GlobalHotkeyManager :=
  match dict_get key_str (_hotkeys s) with
  | Some _ =>
      let s1 := {| _hotkeys := dict_del key_str (_hotkeys s);
                   _handles := _handles s; _running := _running s;
                   keyboard_lib := keyboard_lib s |} in
      (true, if _running s1 then _restart_listener s1 else s1)
  | None => (false, s)
  end.

Definition start {SL : StrLower} (s : GlobalHotkeyManager)
  : GlobalHotkeyManager :=
  if _running s then s
  else match _hotkeys s with
       | [] => s
       | _ =>
           _start_listener
             {| _hotkeys := _hotkeys s; _handles := _handles s;
                _running := true; keyboard_lib := keyboard_lib s |}
       end.

Definition stop (s : GlobalHotkeyManager) : GlobalHotkeyManager :=
  remove_handles
    {| _hotkeys := _hotkeys s; _handles := _handles s; _running := false;
       keyboard_lib := keyboard_lib s |}.

(** *** Definitions used to state the properties of the manager *)

(** The character [c] occurs in [s]. *)
Fixpoint has_char (c : Ascii.ascii) (s : string) : bool :=
  match s with
  | EmptyString => false
  | String a r => Ascii.eqb c a || has_char c r
  end.

(** The library takes the hotkey registered under [k]: its normalized
    name is not empty and [add_hotkey] does not raise on it. *)
Definition accepted {SL : StrLower} (l : KeyboardLib) (k : string) : Prop :=
  _normalize_hotkey k ≠ "" ∧ add_hotkey_ok l (_normalize_hotkey k) = true.

(** The library entry [e] carries one of the manager's handles. *)
Definition owned (s : GlobalHotkeyManager)
  (e : Handle * (string * Callback)) : bool :=
  existsb (λ kh : string * Handle, Nat.eqb kh.2 e.1) (_handles s).

(** Handles are unique: the library never hands out one it has in its
    table. *)
Definition fresh_handles (l : KeyboardLib) : Prop :=
  ∀ e, e ∈ lib_hotkeys l → (e.1 < next_handle l)%nat.

(** What the manager keeps between calls: the hotkeys are a dict; a
    stopped manager holds no handle; every handle belongs to a registered
    hotkey that the library took, and is in the library's table under the
    normalized name with the registered callback; a running manager holds a
    handle for every registered hotkey the library takes. *)
Definition listening_inv {SL : StrLower} (s : GlobalHotkeyManager) : Prop :=
  NoDup (_hotkeys s).*1
  ∧ (_running s = false → _handles s = [])
  ∧ (∀ k h, dict_get k (_handles s) = Some h →
       ∃ cb, dict_get k (_hotkeys s) = Some cb
             ∧ accepted (keyboard_lib s) k
             ∧ (h, (_normalize_hotkey k, cb)) ∈ lib_hotkeys (keyboard_lib s))
  ∧ (_running s = true →
     ∀ k cb, dict_get k (_hotkeys s) = Some cb →
             accepted (keyboard_lib s) k →
             is_Some (dict_get k (_handles s))).

End GlobalHotkey.

(** ** A concrete configuration

    Instances of the three interfaces and a small setup, used to run the
    definitions on concrete inputs. *)

(** The Win32 message numbers, [VK_CAPITAL] and [VK_F12]. *)
Definition win32 : KeyMapper :=
  {| WM_KEYUP := 257; WM_SYSKEYUP := 261;
     WM_XBUTTONDOWN := 523; WM_XBUTTONUP := 524; XBUTTON1 := 1;
     KEYBOARD_MESSAGES := [256; 257; 260; 261];
     KEY_DOWN_MESSAGES := [256; 260];
     KEY_UP_MESSAGES := [257; 261];
     MOUSE_MESSAGES := [523; 524];
     vk_to_name := λ vk, if Z.eqb vk 20 then Some "caps_lock"
                         else if Z.eqb vk 123 then Some "f12" else None;
     internal_to_keyboard_lib_name :=
       λ k, if String.eqb k "caps_lock" then "caps lock" else k |}.

(** A handler for the interface: a press starts a recording unless one is
    running, a release is treated as [_handle_mouse_keyup] treats it. *)
Definition press_release_handler {KM : KeyMapper} : ShortcutEventHandler :=
  {| handle_keydown := λ k,
       t ← self_ k; when (negb (is_recording t)) (launch k);
     handle_keyup := λ k, _handle_mouse_keyup k |}.

Definition ascii_lower (a : Ascii.ascii) : Ascii.ascii :=
  let n := Ascii.nat_of_ascii a in
  if ((65 <=? n) && (n <=? 90))%nat then Ascii.ascii_of_nat (n + 32) else a.

Fixpoint lower_ascii (s : string) : string :=
  match s with
  | EmptyString => EmptyString
  | String a r => String (ascii_lower a) (lower_ascii r)
  end.

Definition sample_world (sys : string) (rec_ok : bool) : World :=
  {| system := sys; clock := λ n, 10 * Z.of_nat n;
     is_toggled := λ _, Some true;
     press_and_release_ok := λ _, true;
     recorder_ok := rec_ok |}.

(** A suppressed hold-mode side button, a suppressed hold-mode caps-lock
    and a chord. *)
Definition sc_x1 : Shortcut :=
  {| key := "x1"; type := mouse; hold_mode := true; suppress := true;
     enabled := true; is_toggle_key := false; get_threshold := λ d, d |}.
Definition sc_caps : Shortcut :=
  {| key := "caps_lock"; type := keyboard; hold_mode := true;
     suppress := true; enabled := true; is_toggle_key := true;
     get_threshold := λ d, d |}.
Definition sc_chord : Shortcut :=
  {| key := "ctrl + alt+h"; type := keyboard; hold_mode := true;
     suppress := false; enabled := true; is_toggle_key := false;
     get_threshold := λ d, d |}.

Definition sample_manager (sys : string) (rec_ok : bool) : ShortcutManager :=
  init_manager (sample_world sys rec_ok) 30 [sc_x1; sc_caps; sc_chord].

#[global] Existing Instance win32.
#[global] Existing Instance press_release_handler.
#[global] Instance ascii_str_lower : StrLower := lower_ascii.

(** ** Definitions used to state the properties *)

(** The restoration policy in the words of the specification: with a
    backend that honours suppression (Windows), restore exactly when
    suppression is off; otherwise restore exactly when the live toggle state
    differs from the snapshot, and always when one of them is missing. *)
Definition restore_policy (windows suppress_ : bool)
  (snapshot live : option bool) : bool :=
  if windows then negb suppress_
  else match snapshot, live with
       | Some s, Some l => negb (Bool.eqb l s)
       | _, _ => true
       end.

(** The store after [schedule_restore key]. *)
Definition scheduled (key_ : string) (c : Core) : Core :=
  set__pool (λ js, js ++ [JDoRestore key_])
    (set__restoring_keys (λ s, s ∪ {[key_]}) c).

(** What [keyboard.is_toggled] returns now for the key of a task. *)
Definition live_toggle {KM : KeyMapper} (c : Core) (t : ShortcutTask)
  : option bool :=
  is_toggled (world c) (internal_to_keyboard_lib_name (key (shortcut t))).

Definition windows (c : Core) : bool := String.eqb (system (world c)) "Windows".

(** The jobs a resolution of task [t] adds to the pool for restoration. *)
Definition restore_jobs {KM : KeyMapper} (c : Core) (t : ShortcutTask)
  : list Job :=
  if is_toggle_key (shortcut t)
     && restore_policy (windows c) (suppress (shortcut t))
          (_toggle_state_at_press t) (live_toggle c t)
  then [JDoRestore (key (shortcut t))] else [].

(** The store after task [t] has been resolved: a restore is scheduled or
    it is not. *)
Definition resolved {KM : KeyMapper} (t : ShortcutTask) (c : Core) : Core :=
  if is_toggle_key (shortcut t)
     && restore_policy (windows c) (suppress (shortcut t))
          (_toggle_state_at_press t) (live_toggle c t)
  then scheduled (key (shortcut t)) c else c.

(** The assignments of [cancel] and [finish] before the handle is used. *)
Definition stopped (k : string) (c : Core) : Core :=
  set_tasks (alter (set__status false) k)
    (set_state_recording None
       (set_tasks (alter (set_is_recording false) k) c)).

(** The part of [launch] up to and including [self._status.start()]. *)
Definition armed {KM : KeyMapper} (k : string) (t : ShortcutTask) (c : Core) : Core :=
  let now := clock (world c) (time_reads c) in
  let c0 :=
    if is_toggle_key (shortcut t) && negb (windows c)
    then set_tasks (alter (set__toggle_state_at_press (live_toggle c t)) k) c
    else c in
  set_tasks (alter (set__status true) k)
    (set_state_recording (Some now)
       (set_queue_in (λ q, q ++ [begin_item now])
          (set_tasks (alter (set_is_recording true) k)
             (set_tasks (alter (set_recording_start_time now) k)
                (set_time_reads S c0))))).

(** Is [msg] one of the two key-release messages that the anti-self-capture
    checks look for. *)
Definition is_key_up {KM : KeyMapper} (msg : Z) : bool :=
  bool_decide (msg ∈ [WM_KEYUP; WM_SYSKEYUP]).

(** The manager after [clear_emulating_flag] / [clear_restoring_flag]. *)
Definition clear_emulating (k : string) (m : ShortcutManager)
  : ShortcutManager :=
  set_core (set__emulating_keys (λ s, s ∖ {[k]})) m.
Definition clear_restoring (k : string) (m : ShortcutManager)
  : ShortcutManager :=
  set_core (set__restoring_keys (λ s, s ∖ {[k]})) m.

(** The snapshot attribute is only ever assigned off Windows. *)
Definition snapshot_off_windows (c : Core) (t : ShortcutTask) : Prop :=
  windows c = true → _toggle_state_at_press t = None.

(** The invariant of a task between two of its methods: recording implies
    a capture handle, and a snapshot exists only off Windows. *)
Definition task_inv (c : Core) (t : ShortcutTask) : Prop :=
  (is_recording t = true → is_Some (task t)) ∧ snapshot_off_windows c t.

(** *** Chords, in the words of the specification *)


(** A chord as configured: its key and its member names. *)
Definition chord_of (c : Combo) : string * gset string :=
  (combo_key c, combo_keys c).

Definition all_held (ch : string * gset string) (P : gset string) : bool :=
  bool_decide (ch.2 ⊆ P).



(** The [active] flag of a chord says whether its members are all held. *)
Definition in_sync (P : gset string) (c : Combo) : Prop :=
  combo_active c = all_held (chord_of c) P.

Definition combos_in_sync (m : ShortcutManager) : Prop :=
  Forall (in_sync (_pressed_keys m)) (_combo_defs m).

Definition is_restore_job (j : Job) : bool :=
  match j with JDoRestore _ => true | _ => false end.

Definition no_cancel_attr : Exn :=
  AttributeError "'NoneType' object has no attribute 'cancel'".

(** *** Stores of the concrete configuration *)

(** The store once [launch k] has run on the fresh manager, and the task
    found under [k] in a store (the fresh task if there is none). *)
Definition launched (sys : string) (rec_ok : bool) (k : string) : Core :=
  (launch k (core (sample_manager sys rec_ok))).2.

Definition task_at (k : string) (c : Core) : ShortcutTask :=
  default (new_task sc_x1 0) (tasks c !! k).

(** The manager with a replaced store. *)
Definition with_core (c : Core) (m : ShortcutManager) : ShortcutManager :=
  set_core (λ _, c) m.


(** A restore of caps-lock in flight: scheduled, and the worker has just
    synthesized the key but not yet cleared the Restoring Set entry. *)
Definition restore_in_flight : ShortcutManager :=
  let m := sample_manager "Windows" true in
  with_core ((schedule_restore "caps_lock";; emulate_key "caps_lock") (core m)).2 m.

(** ["x1"] entered in the Restoring Set. *)
Definition x1_restoring : ShortcutManager :=
  let m := sample_manager "Windows" true in
  with_core (schedule_restore "x1" (core m)).2 m.



(** *** Definitions used by the further properties *)

(** A computation that changes no task other than the one stored under [k]
    and the configuration of no task at all -- whether it returns or
    raises. *)
Definition touches_only {A} (k : string) (m : M Core A) : Prop :=
  ∀ c,
    (∀ j, j ≠ k → tasks (m c).2 !! j = tasks c !! j)
    ∧ (∀ j, shortcut <$> tasks (m c).2 !! j = shortcut <$> tasks c !! j).

(** What [stop] requires of the tasks: one that is recording holds its
    capture handle. *)
Definition recording_have_handles (c : Core) : Prop :=
  ∀ k t, tasks c !! k = Some t → is_recording t = true → is_Some (task t).

(** What [stop] releases: on Windows the two pynput listeners, elsewhere
    the hooks of the keyboard library. *)
Definition listeners_released (m : ShortcutManager) : Prop :=
  if _is_windows m then
    (∀ l, keyboard_listener m = Some l → listener_running l = false)
    ∧ (∀ l, mouse_listener m = Some l → listener_running l = false)
  else _keyboard_hooks m = [] ∧ _combo_hook m = None.






(** A click-mode shortcut and a manager that has only this one. *)
Definition sc_f12_click : Shortcut :=
  {| key := "f12"; type := keyboard; hold_mode := false; suppress := false;
     enabled := true; is_toggle_key := false; get_threshold := λ d, d |}.

Definition click_manager : ShortcutManager :=
  init_manager (sample_world "Windows" true) 30 [sc_f12_click].

(** A keyboard library with one hotkey of another owner, which refuses the
    name [bad]; a stopped manager with two registered hotkeys, and the same
    manager started. *)
Definition sample_lib : GlobalHotkey.KeyboardLib :=
  {| GlobalHotkey.lib_hotkeys := [(0%nat, ("f1", 7%nat))];
     GlobalHotkey.next_handle := 1%nat;
     GlobalHotkey.add_hotkey_ok := λ hotkey, negb (String.eqb hotkey "bad") |}.

Definition stopped_hotkeys : GlobalHotkey.GlobalHotkeyManager :=
  GlobalHotkey.register "bad" 2%nat
    (GlobalHotkey.register "<esc>" 1%nat (GlobalHotkey.new_manager sample_lib)).

Definition running_hotkeys : GlobalHotkey.GlobalHotkeyManager :=
  GlobalHotkey.start stopped_hotkeys.

(** * Properties *)

Ltac unfold_m :=
  unfold mbind, M_bind, mret, M_ret, bind, ret, get, gets, modify, when,
    raise, zoom in *.

Ltac unfold_task :=
  unfold launch, cancel, finish, _handle_mouse_keyup, _restore_key_if_needed,
    _restore_key, schedule_restore, submit, queue_put, time_time,
    run_record_and_send, future_cancel, _get_recorder, read_toggled,
    on_windows, assign, self_ in *.

(** Evaluate a task method on a store in which [self] is known. *)
Ltac run_task Hk :=
  unfold_task; unfold_m; simpl;
  repeat (rewrite ?lookup_alter_eq, ?Hk; simpl).

Lemma run_bind {S A B} (m : M S A) (f : A → M S B) (s : S) :
  (m ≫= f) s =
    match m s with
    | (Ok a, s') => f a s'
    | (Raise e, s') => (Raise e, s')
    end.
Proof. reflexivity. Qed.

Lemma run_time_time c :
  time_time c = (Ok (clock (world c) (time_reads c)), set_time_reads S c).
Proof. reflexivity. Qed.

Section TaskProps.
Context {KM : KeyMapper}.

Lemma restore_if_needed_eq k c t :
  tasks c !! k = Some t →
  _restore_key_if_needed k c =
    (Ok tt,
     if restore_policy (windows c) (suppress (shortcut t))
          (_toggle_state_at_press t) (live_toggle c t)
     then scheduled (key (shortcut t)) c else c).
Proof.
  intros Hk. unfold restore_policy, windows, live_toggle.
  run_task Hk.
  destruct (String.eqb (system (world c)) "Windows"); simpl.
  - destruct (suppress (shortcut t)); simpl; [done|]. by rewrite Hk.
  - destruct (_toggle_state_at_press t) as [s|],
      (is_toggled (world c)
         (internal_to_keyboard_lib_name (key (shortcut t)))) as [l|]; simpl; rewrite ?Hk; try done.
    destruct (Bool.eqb l s); simpl; [done|]. by rewrite Hk.
Qed.

#[local] Arguments _restore_key_if_needed : simpl never.
#[local] Arguments armed : simpl never.
#[local] Arguments resolved : simpl never.
#[local] Arguments cancel : simpl never.
#[local] Arguments finish : simpl never.
#[local] Arguments launch : simpl never.

Lemma cancel_eq k c t :
  tasks c !! k = Some t →
  cancel k c =
    match task t with
    | None => (Raise no_cancel_attr, stopped k c)
    | Some fut =>
        (Ok tt,
         resolved t
           (set_tasks (alter (set_task None) k)
              (set_futures (λ fs, <[fut := Cancelled]> fs) (stopped k c))))
    end.
Proof.
  intros Hk. unfold cancel, assign, self_, future_cancel. unfold_m. simpl.
  rewrite !lookup_alter_eq, Hk. simpl.
  destruct (task t) as [fut|]; simpl; [|done].
  unfold resolved.
  destruct (is_toggle_key (shortcut t)) eqn:E; simpl; [|done].
  erewrite restore_if_needed_eq
    by (simpl; rewrite !lookup_alter_eq, Hk; reflexivity).
  reflexivity.
Qed.

Lemma finish_eq k c t :
  tasks c !! k = Some t →
  finish k c =
    (Ok tt,
     resolved t
       (set_queue_in (λ q, q ++ [finish_item (clock (world c) (time_reads c))])
          (set_time_reads S (stopped k c)))).
Proof.
  intros Hk. unfold finish, assign, self_, time_time, queue_put. unfold_m.
  simpl. rewrite !lookup_alter_eq, Hk. simpl.
  unfold resolved.
  destruct (is_toggle_key (shortcut t)) eqn:E; simpl; [|done].
  erewrite restore_if_needed_eq
    by (simpl; rewrite !lookup_alter_eq, Hk; reflexivity).
  reflexivity.
Qed.

Lemma launch_eq k c t :
  tasks c !! k = Some t →
  launch k c =
    if recorder_ok (world c) then
      (Ok tt,
       set_tasks (alter (set_task (Some (length (futures c)))) k)
         (set_futures (λ fs, fs ++ [Running]) (armed k t c)))
    else (Raise (Exception "AudioRecorder"), armed k t c).
Proof.
  intros Hk. unfold launch, assign, self_, time_time, queue_put,
    _get_recorder, run_record_and_send, read_toggled, on_windows, armed,
    windows, live_toggle.
  unfold_m. simpl. rewrite Hk. simpl.
  destruct (is_toggle_key (shortcut t) && _); simpl;
    destruct (recorder_ok (world c)); reflexivity.
Qed.

Lemma tasks_resolved t c : tasks (resolved t c) = tasks c.
Proof. unfold resolved. by destruct (_ && _). Qed.

Lemma queue_resolved t c : queue_in (resolved t c) = queue_in c.
Proof. unfold resolved. by destruct (_ && _). Qed.

Lemma futures_resolved t c : futures (resolved t c) = futures c.
Proof. unfold resolved. by destruct (_ && _). Qed.

Lemma world_resolved t c : world (resolved t c) = world c.
Proof. unfold resolved. by destruct (_ && _). Qed.

Lemma pool_resolved t c : _pool (resolved t c) = _pool c ++ restore_jobs c t.
Proof.
  unfold resolved, restore_jobs. destruct (_ && _); simpl; [done|].
  by rewrite app_nil_r.
Qed.

Lemma restoring_resolved t c :
  _restoring_keys (resolved t c) =
    if bool_decide (restore_jobs c t = []) then _restoring_keys c
    else _restoring_keys c ∪ {[key (shortcut t)]}.
Proof. unfold resolved, restore_jobs. by destruct (_ && _). Qed.

Lemma tasks_armed k t c :
  tasks c !! k = Some t →
  ∃ t', tasks (armed k t c) !! k = Some t'
        ∧ shortcut t' = shortcut t ∧ task t' = task t
        ∧ is_recording t' = true
        ∧ recording_start_time t' = clock (world c) (time_reads c)
        ∧ threshold t' = threshold t
        ∧ _toggle_state_at_press t' =
            if is_toggle_key (shortcut t) && negb (windows c)
            then live_toggle c t else _toggle_state_at_press t.
Proof.
  intros Hk. unfold armed.
  destruct (is_toggle_key (shortcut t) && negb (windows c)); simpl;
    rewrite !lookup_alter_eq, Hk; simpl; eauto 10.
Qed.

(** C2. Action-sink protocol.  For a registered task: [launch] puts exactly
    one [begin] item, stamped with the start time it records, on the queue
    (whether or not the recorder then starts); [finish] puts exactly one
    [finish] item stamped with the clock reading it takes; [cancel] puts
    nothing, whether it returns or raises.  Hence an activation that is
    finished contributes [begin; finish] and one that is cancelled
    contributes [begin] alone. *)
Theorem action_sink_protocol k c t :
  tasks c !! k = Some t →
  let start := clock (world c) (time_reads c) in
  (queue_in (launch k c).2 = queue_in c ++ [begin_item start]
   ∧ ∃ t', tasks (launch k c).2 !! k = Some t'
           ∧ recording_start_time t' = start)
  ∧ queue_in (finish k c).2 = queue_in c ++ [finish_item start]
  ∧ queue_in (cancel k c).2 = queue_in c
  ∧ (recorder_ok (world c) = true →
     queue_in ((launch k;; finish k) c).2 =
       queue_in c ++ [begin_item start;
                      finish_item (clock (world c) (S (time_reads c)))]
     ∧ queue_in ((launch k;; cancel k) c).2 =
         queue_in c ++ [begin_item start]).
Proof.
  intros Hk start.
  destruct (tasks_armed k t c Hk) as (ta & Hta & Hsc & Htask & Hrec & Hst & _).
  assert (Hq : queue_in (armed k t c) = queue_in c ++ [begin_item start]).
  { unfold armed. by destruct (_ && _). }
  assert (Hw : world (armed k t c) = world c).
  { unfold armed. by destruct (_ && _). }
  assert (Hr : time_reads (armed k t c) = S (time_reads c)).
  { unfold armed. by destruct (_ && _). }
  repeat split.
  - rewrite (launch_eq k c t Hk). by destruct (recorder_ok (world c)).
  - rewrite (launch_eq k c t Hk). destruct (recorder_ok (world c)); cbn.
    + rewrite lookup_alter_eq. rewrite Hta. cbn. eauto.
    + eauto.
  - rewrite (finish_eq k c t Hk). cbn. by rewrite queue_resolved.
  - rewrite (cancel_eq k c t Hk).
    destruct (task t); cbn; [by rewrite queue_resolved|done].
  - unfold mbind, M_bind, bind. rewrite (launch_eq k c t Hk), H. 
    erewrite finish_eq by (cbn; rewrite lookup_alter_eq, Hta; done).
    cbn. rewrite queue_resolved. cbn. rewrite Hq, Hw, Hr.
    by rewrite <- app_assoc.
  - unfold mbind, M_bind, bind. rewrite (launch_eq k c t Hk), H.
    erewrite cancel_eq by (cbn; rewrite lookup_alter_eq, Hta; done).
    cbn. by rewrite queue_resolved.
Qed.

(** C4. Toggle-key restoration policy.  When a toggle-capable trigger is
    resolved by [finish], or by [cancel] with the capture handle in place,
    a restore of its key is scheduled (one [do_restore] job submitted, the
    key entered in the Restoring Set) exactly when [restore_policy] says so:
    on Windows iff suppression is off; elsewhere iff the live toggle state
    differs from the snapshot, and always when either is unavailable. *)
Theorem toggle_restore_policy k c t :
  tasks c !! k = Some t →
  is_toggle_key (shortcut t) = true →
  let decision :=
    restore_policy (windows c) (suppress (shortcut t))
      (_toggle_state_at_press t) (live_toggle c t) in
  let key_ := key (shortcut t) in
  (_pool (finish k c).2 = _pool c ++ (if decision then [JDoRestore key_] else [])
   ∧ _restoring_keys (finish k c).2 =
       (if decision then _restoring_keys c ∪ {[key_]} else _restoring_keys c))
  ∧ (∀ fut, task t = Some fut →
     _pool (cancel k c).2 = _pool c ++ (if decision then [JDoRestore key_] else [])
     ∧ _restoring_keys (cancel k c).2 =
         (if decision then _restoring_keys c ∪ {[key_]} else _restoring_keys c)).
Proof.
  intros Hk Htog decision key_. split; [|intros fut Hfut].
  - rewrite (finish_eq k c t Hk). cbn [snd].
    rewrite pool_resolved, restoring_resolved.
    unfold restore_jobs, windows, live_toggle. rewrite Htog. cbn.
    fold (windows c) (live_toggle c t) decision key_.
    destruct decision; cbn; by rewrite ?app_nil_r.
  - rewrite (cancel_eq k c t Hk), Hfut. cbn [snd].
    rewrite pool_resolved, restoring_resolved.
    unfold restore_jobs, windows, live_toggle. rewrite Htog. cbn.
    fold (windows c) (live_toggle c t) decision key_.
    destruct decision; cbn; by rewrite ?app_nil_r.
Qed.

Lemma restore_jobs_at_most_one c t :
  (length (List.filter is_restore_job (restore_jobs c t)) ≤ 1)%nat.
Proof. unfold restore_jobs. destruct (_ && _); cbn; lia. Qed.

Lemma restore_jobs_same_state c t s :
  snapshot_off_windows c t →
  _toggle_state_at_press t = Some s → live_toggle c t = Some s →
  restore_jobs c t = [].
Proof.
  intros Hinv Hs Hl. unfold restore_jobs, restore_policy.
  destruct (windows c) eqn:Hw.
  - rewrite Hinv in Hs; done.
  - rewrite Hs, Hl, Bool.eqb_reflx. cbn. by rewrite andb_false_r.
Qed.

(** C7. Restoration at most once, and not at all when nothing changed.
    [launch] schedules no restore; each resolution ([finish], or [cancel]
    whether it returns or raises) adds at most one restore job to the pool.
    When the snapshot taken at press time and the live toggle state read at
    resolution are both available and equal, the resolution adds no job and
    leaves the Restoring Set alone.  (A snapshot exists only off Windows:
    [snapshot_off_windows].) *)
Theorem restore_at_most_once k c t :
  tasks c !! k = Some t →
  snapshot_off_windows c t →
  _pool (launch k c).2 = _pool c
  ∧ (∃ js, _pool (finish k c).2 = _pool c ++ js
           ∧ (length (List.filter is_restore_job js) ≤ 1)%nat)
  ∧ (∃ js, _pool (cancel k c).2 = _pool c ++ js
           ∧ (length (List.filter is_restore_job js) ≤ 1)%nat)
  ∧ (∀ s, _toggle_state_at_press t = Some s → live_toggle c t = Some s →
     _pool (finish k c).2 = _pool c
     ∧ _restoring_keys (finish k c).2 = _restoring_keys c
     ∧ _pool (cancel k c).2 = _pool c
     ∧ _restoring_keys (cancel k c).2 = _restoring_keys c).
Proof.
  intros Hk Hinv. split; [|split; [|split]].
  - rewrite (launch_eq k c t Hk). unfold armed.
    by destruct (recorder_ok (world c)), (_ && _).
  - exists (restore_jobs c t). split; [|apply restore_jobs_at_most_one].
    rewrite (finish_eq k c t Hk). cbn [snd]. by rewrite pool_resolved.
  - rewrite (cancel_eq k c t Hk). destruct (task t) as [fut|]; cbn [snd].
    + exists (restore_jobs c t). split; [|apply restore_jobs_at_most_one].
      by rewrite pool_resolved.
    + exists []. cbn. split; [by rewrite app_nil_r|lia].
  - intros s Hs Hl.
    pose proof (restore_jobs_same_state c t s Hinv Hs Hl) as Hnone.
    rewrite (finish_eq k c t Hk), (cancel_eq k c t Hk).
    destruct (task t) as [fut|]; cbn [snd];
      rewrite ?pool_resolved, ?restoring_resolved; cbn;
      change (restore_jobs _ t) with (restore_jobs c t);
      rewrite ?Hnone, ?app_nil_r; done.
Qed.

Lemma mouse_keyup_hold_eq k c t :
  tasks c !! k = Some t →
  hold_mode (shortcut t) = true → is_recording t = true →
  _handle_mouse_keyup k c =
    if (clock (world c) (time_reads c) - recording_start_time t
          <? threshold t)%Z
    then (cancel k;;
          when (suppress (shortcut t)) (submit (JEmulateMouseClick k)))
           (set_time_reads S c)
    else finish k (set_time_reads S c).
Proof.
  intros Hk Hh Hr. unfold _handle_mouse_keyup, self_.
  rewrite run_bind, Hk, Hh, Hr. cbn [negb].
  rewrite run_bind, run_time_time.
  by destruct (_ <? _)%Z.
Qed.

(** C3. Hold-mode threshold.  A release reaches a hold-mode task that is
    recording; [elapsed] is the clock reading taken at the release minus the
    recorded start.  If [elapsed < threshold], nothing is put on the queue
    (no [finish]) and the task stops recording; with the capture handle in
    place the handler returns, the capture future is cancelled, the handle
    is dropped, and the pool receives the restore job of the resolution (if
    any) followed, when the trigger is suppressed, by exactly one re-press
    job for this button, and by nothing when it is not.  If
    [elapsed >= threshold], the handler returns, the task stops recording
    and a [finish] item stamped with the next clock reading is put on the
    queue. *)
Theorem hold_release_threshold k c t :
  tasks c !! k = Some t →
  hold_mode (shortcut t) = true →
  is_recording t = true →
  let elapsed := clock (world c) (time_reads c) - recording_start_time t in
  let r := _handle_mouse_keyup k c in
  (∃ t', tasks r.2 !! k = Some t' ∧ is_recording t' = false)
  ∧ ((elapsed < threshold t)%Z →
     queue_in r.2 = queue_in c
     ∧ ∀ fut, task t = Some fut →
         r.1 = Ok tt
         ∧ futures r.2 = <[fut := Cancelled]> (futures c)
         ∧ (∃ t', tasks r.2 !! k = Some t' ∧ task t' = None)
         ∧ _pool r.2 =
             _pool c ++ restore_jobs c t
               ++ (if suppress (shortcut t) then [JEmulateMouseClick k]
                   else []))
  ∧ ((threshold t ≤ elapsed)%Z →
     r.1 = Ok tt
     ∧ queue_in r.2 =
         queue_in c ++ [finish_item (clock (world c) (S (time_reads c)))]).
Proof.
  intros Hk Hh Hr elapsed r. subst r.
  rewrite (mouse_keyup_hold_eq k c t Hk Hh Hr). fold elapsed.
  assert (Hk' : tasks (set_time_reads S c) !! k = Some t) by done.
  destruct (elapsed <? threshold t)%Z eqn:E.
  - apply Z.ltb_lt in E. rewrite run_bind, (cancel_eq k _ t Hk').
    destruct (task t) as [fut|] eqn:Hf.
    + assert (Hlook : ∀ c0, tasks c0 = tasks (stopped k (set_time_reads S c)) →
                ∃ t', alter (set_task None) k (tasks c0) !! k = Some t'
                      ∧ is_recording t' = false ∧ task t' = None).
      { intros c0 ->. cbn. rewrite !lookup_alter_eq, Hk. cbn. eauto. }
      destruct (Hlook _ eq_refl) as (t' & Ht' & Hrec' & Htask').
      destruct (suppress (shortcut t)); cbn [when];
        unfold submit, modify, ret; cbn [fst snd].
      * split; [|split; [|intros; lia]].
        -- cbn. rewrite tasks_resolved. eauto.
        -- intros _. cbn. rewrite queue_resolved. split; [done|].
           intros ? [= <-].
           rewrite pool_resolved, tasks_resolved, futures_resolved.
           change (restore_jobs _ t) with (restore_jobs c t).
           cbn. rewrite <- app_assoc. repeat split; eauto.
      * split; [|split; [|intros; lia]].
        -- rewrite tasks_resolved. eauto.
        -- intros _. rewrite queue_resolved. split; [done|].
           intros ? [= <-].
           rewrite pool_resolved, tasks_resolved, futures_resolved.
           change (restore_jobs _ t) with (restore_jobs c t).
           cbn. rewrite app_nil_r. repeat split; eauto.
    + cbn [fst snd]. split; [|split; [|intros; lia]].
      * cbn. rewrite !lookup_alter_eq, Hk. cbn. eauto.
      * intros _. split; [done|]. intros ? [=].
  - apply Z.ltb_ge in E. rewrite (finish_eq k _ t Hk'). cbn [fst snd].
    split; [|split; [intros; lia|]].
    + rewrite tasks_resolved. cbn. rewrite !lookup_alter_eq, Hk. cbn. eauto.
    + intros _. by rewrite queue_resolved.
Qed.

(** A fresh task satisfies the invariant and every task method that
    returns keeps it. *)
Lemma task_inv_new w thr sc c : world c = w → task_inv c (new_task sc thr).
Proof. intros _. split; [done|]. by intros _. Qed.

(** X6. The task invariant is kept.  On a registered task for which
    recording implies a capture handle and a snapshot exists only off
    Windows, each of [launch], [finish], [cancel] and [_handle_mouse_keyup]
    that returns leaves the task registered and with the same two
    properties. *)
Lemma task_inv_preserved k c t :
  tasks c !! k = Some t → task_inv c t →
  ∀ op, op ∈ [launch k; finish k; cancel k; _handle_mouse_keyup k] →
    (op c).1 = Ok tt →
    ∃ t', tasks (op c).2 !! k = Some t' ∧ task_inv (op c).2 t'.
Proof.
  intros Hk [Hrec Hsnap] op Hop Hok.
  assert (Hfin : ∀ c0, tasks c0 !! k = Some t → world c0 = world c →
            ∃ t', tasks (finish k c0).2 !! k = Some t'
                  ∧ task_inv (finish k c0).2 t').
  { intros c0 Hk0 Hw. rewrite (finish_eq k c0 t Hk0). cbn [snd].
    rewrite tasks_resolved. cbn. rewrite !lookup_alter_eq, Hk0. cbn.
    eexists; split; [done|]. split; [done|].
    unfold snapshot_off_windows, windows. rewrite world_resolved. cbn.
    rewrite Hw. apply Hsnap. }
  assert (Hcan : ∀ c0, tasks c0 !! k = Some t → world c0 = world c →
            (cancel k c0).1 = Ok tt →
            ∃ t', tasks (cancel k c0).2 !! k = Some t'
                  ∧ task_inv (cancel k c0).2 t').
  { intros c0 Hk0 Hw. rewrite (cancel_eq k c0 t Hk0).
    destruct (task t) as [fut|]; [|done]. intros _. cbn [snd].
    rewrite tasks_resolved. cbn. rewrite !lookup_alter_eq, Hk0. cbn.
    eexists; split; [done|]. split; [done|].
    unfold snapshot_off_windows, windows. rewrite world_resolved. cbn.
    rewrite Hw. apply Hsnap. }
  rewrite !elem_of_cons, elem_of_nil in Hop.
  destruct Hop as [->|[->|[->|[->|[]]]]].
  - revert Hok. rewrite (launch_eq k c t Hk).
    destruct (recorder_ok (world c)); [|done]. intros _. cbn [snd].
    destruct (tasks_armed k t c Hk) as (ta & Hta & _ & _ & _ & _ & _ & Hs).
    cbn. rewrite lookup_alter_eq, Hta. cbn.
    eexists; split; [done|]. split; [by eauto|].
    unfold snapshot_off_windows, windows. cbn.
    assert (Hw : world (armed k t c) = world c).
    { unfold armed. by destruct (_ && _). }
    rewrite Hw. fold (windows c). intros Hwin. rewrite Hs, Hwin.
    rewrite andb_false_r. by apply Hsnap.
  - by apply Hfin.
  - by apply Hcan.
  - revert Hok.
    destruct (hold_mode (shortcut t)) eqn:Eh, (is_recording t) eqn:Er.
    + rewrite (mouse_keyup_hold_eq k c t Hk Eh Er).
      destruct (_ <? _)%Z; [|intros _; by apply Hfin].
      rewrite run_bind.
      destruct (cancel k (set_time_reads S c)) as [[[]|e] c1] eqn:Ec; [|done].
      intros _.
      destruct (Hcan (set_time_reads S c) Hk eq_refl) as (t' & H1 & H2);
        [by rewrite Ec|].
      rewrite Ec in H1, H2. cbn in H1, H2.
      destruct (suppress (shortcut t)); cbn; eauto.
    + intros _. unfold _handle_mouse_keyup, self_.
      rewrite run_bind, Hk, Eh, Er. cbn. rewrite Hk.
      eexists; split; [done|]. split; [by rewrite Er|done].
    + intros _. unfold _handle_mouse_keyup, self_.
      rewrite run_bind, Hk, Eh. cbn [negb].
      destruct (pressed t); unfold assign; unfold_m; cbn;
        rewrite ?lookup_alter_eq, Hk; cbn;
        (eexists; split; [done|]); (split; [|exact Hsnap]); cbn; auto.
    + intros _. unfold _handle_mouse_keyup, self_.
      rewrite run_bind, Hk, Eh. cbn [negb].
      destruct (pressed t); unfold assign; unfold_m; cbn;
        rewrite ?lookup_alter_eq, Hk; cbn;
        (eexists; split; [done|]); (split; [|exact Hsnap]); cbn;
        by rewrite Er.
Qed.

(** *** Shutdown with a recording task that has no handle *)

Lemma release_listeners_core m :
  ∃ m', release_listeners m = (Ok tt, m') ∧ core m' = core m.
Proof.
  unfold release_listeners. rewrite run_bind. cbn [get].
  destruct (_is_windows m); eexists; split; reflexivity.
Qed.

Lemma stop_round_frame j x k m :
  j ≠ k →
  tasks (core (stop_round (j, x) m).2) !! k = tasks (core m) !! k.
Proof.
  intros Hne. unfold stop_round, in_core, zoom, self_. rewrite run_bind.
  cbn [fst]. destruct (tasks (core m) !! j) as [tj|] eqn:Hj; cbn; [|done].
  destruct (is_recording tj); cbn; [|done].
  rewrite (cancel_eq j (core m) tj Hj).
  destruct (task tj); cbn; rewrite ?tasks_resolved; cbn;
    by rewrite !lookup_alter_ne.
Qed.

Lemma stop_round_raises k x m t :
  tasks (core m) !! k = Some t → is_recording t = true → task t = None →
  (stop_round (k, x) m).1 = Raise no_cancel_attr.
Proof.
  intros Hk Hr Hn. unfold stop_round, in_core, zoom, self_. rewrite run_bind.
  cbn [fst]. rewrite Hk. cbn. rewrite Hr. cbn.
  by rewrite (cancel_eq k (core m) t Hk), Hn.
Qed.

Lemma stop_loop_raises (l : list (string * ShortcutTask)) k m t :
  k ∈ l.*1 →
  tasks (core m) !! k = Some t → is_recording t = true → task t = None →
  ∃ e, (for_each l stop_round m).1 = Raise e.
Proof.
  revert m. induction l as [|[j x] l IH]; intros m Hin Hk Hr Hn.
  - by apply elem_of_nil in Hin.
  - cbn [for_each]. unfold bind.
    destruct (decide (j = k)) as [->|Hne].
    + pose proof (stop_round_raises k x m t Hk Hr Hn) as Hs.
      destruct (stop_round (k, x) m) as [[[]|e] m1]; cbn in Hs; [done|].
      eauto.
    + pose proof (stop_round_frame j x k m Hne) as Hf.
      destruct (stop_round (j, x) m) as [[[]|e] m1]; cbn in Hf; [|by eauto].
      apply IH; [|by rewrite Hf|done|done].
      cbn in Hin. apply elem_of_cons in Hin as [?|?]; [congruence|done].
Qed.

(** C10. [cancel] dereferences the capture handle unconditionally: on a
    registered task it raises [AttributeError] exactly when the handle is
    [None], i.e. unless a launch assigned it and nothing cleared it since.
    [launch] assigns [is_recording = True] before it assigns the handle, so
    when the recorder fails to start in between, the task is left recording
    without a handle and a following [cancel] raises; and [stop], which
    cancels every task that is recording, raises on any manager holding such
    a task. *)
Theorem cancel_needs_handle m k t :
  tasks (core m) !! k = Some t →
  let c := core m in
  ((cancel k c).1 = Raise no_cancel_attr ↔ task t = None)
  ∧ (is_Some (task t) → (cancel k c).1 = Ok tt)
  ∧ (task t = None → recorder_ok (world c) = false →
     is_ok (launch k c).1 = false
     ∧ (∃ t', tasks (launch k c).2 !! k = Some t'
              ∧ is_recording t' = true ∧ task t' = None)
     ∧ ((launch k;; cancel k) c).1 = Raise (Exception "AudioRecorder")
     ∧ (cancel k (launch k c).2).1 = Raise no_cancel_attr)
  ∧ (is_recording t = true → task t = None →
     ∃ e, (stop m).1 = Raise e).
Proof.
  intros Hk c. subst c. repeat split.
  - rewrite (cancel_eq k _ t Hk). by destruct (task t).
  - intros Hn. by rewrite (cancel_eq k _ t Hk), Hn.
  - intros [fut Hf]. by rewrite (cancel_eq k _ t Hk), Hf.
  - rewrite (launch_eq k _ t Hk), H0. done.
  - rewrite (launch_eq k _ t Hk), H0. cbn [snd].
    destruct (tasks_armed k t _ Hk) as (ta & Hta & _ & Htask & Hrec & _).
    exists ta. by rewrite Htask, H in *.
  - rewrite run_bind, (launch_eq k _ t Hk), H0. done.
  - rewrite (launch_eq k _ t Hk), H0. cbn [snd].
    destruct (tasks_armed k t _ Hk) as (ta & Hta & _ & Htask & Hrec & _).
    rewrite (cancel_eq k _ ta Hta), Htask, H. done.
  - intros Hr Hn. unfold stop. rewrite run_bind.
    destruct (release_listeners_core m) as (m1 & -> & Hc).
    rewrite run_bind. cbn [get]. rewrite run_bind, Hc.
    destruct (stop_loop_raises (map_to_list (tasks (core m))) k m1 t)
      as [e He]; [|by rewrite Hc|done|done|].
    { apply list_elem_of_fmap. exists (k, t). split; [done|].
      by apply elem_of_map_to_list. }
    destruct (for_each _ stop_round m1) as [[[]|e'] m2]; cbn in He;
      [done|]. eauto.
Qed.

End TaskProps.

(** ** The dispatcher *)

Section DispatchProps.
Context {KM : KeyMapper} {EH : ShortcutEventHandler}.

Lemma check_emulating_eq key_name msg is_mouse m :
  _check_emulating key_name msg is_mouse m =
    if bool_decide (key_name ∈ _emulating_keys (core m)) then
      (Ok true,
       if (if is_mouse then Z.eqb msg WM_XBUTTONUP else is_key_up msg)
       then clear_emulating key_name m else m)
    else (Ok false, m).
Proof.
  destruct m. unfold _check_emulating, in_core, is_emulating,
    clear_emulating_flag, is_key_up, clear_emulating.
  unfold_m. cbn.
  destruct (bool_decide _); cbn; [|done].
  destruct is_mouse; [destruct (Z.eqb _ _)|destruct (bool_decide _)]; done.
Qed.

Lemma check_restoring_eq key_name msg m :
  _check_restoring key_name msg m =
    if bool_decide (key_name ∈ _restoring_keys (core m)) then
      (Ok true, if is_key_up msg then clear_restoring key_name m else m)
    else (Ok false, m).
Proof.
  destruct m. unfold _check_restoring, in_core, is_restoring,
    clear_restoring_flag, is_key_up, clear_restoring.
  unfold_m. cbn.
  destruct (bool_decide _); cbn; [|done].
  destruct (bool_decide _); done.
Qed.

(** C1. Anti-self-capture.  An event whose name is in the Emulation Set is
    swallowed on every path of the dispatcher: the Windows keyboard filter,
    the Windows mouse filter and the two key callbacks used elsewhere return
    normally with a store that differs from the one before at most in the
    emulating flag of that name -- so no trigger task is called and the
    [routed] log is unchanged.  On an "up" event ([WM_KEYUP] / [WM_SYSKEYUP],
    [WM_XBUTTONUP], [_keyboard_keyup]) the flag of that name is cleared; on
    any other event it is left set. *)
Theorem emulated_events_are_swallowed m key_name :
  key_name ∈ _emulating_keys (core m) →
  (∀ msg vk,
     msg ∈ KEYBOARD_MESSAGES → vk_to_name vk = Some key_name →
     create_keyboard_filter msg vk m =
       (Ok true, if is_key_up msg then clear_emulating key_name m else m))
  ∧ (∀ msg mouseData,
       msg ∈ MOUSE_MESSAGES → xbutton_name mouseData = key_name →
       create_mouse_filter msg mouseData m =
         (Ok true,
          if Z.eqb msg WM_XBUTTONUP then clear_emulating key_name m else m))
  ∧ _keyboard_keydown key_name m = (Ok tt, m)
  ∧ _keyboard_keyup key_name m = (Ok tt, clear_emulating key_name m)
  ∧ routed (clear_emulating key_name m) = routed m
  ∧ key_name ∉ _emulating_keys (core (clear_emulating key_name m)).
Proof.
  intros Hin. repeat split.
  - intros msg vk Hmsg Hvk. unfold create_keyboard_filter.
    rewrite (bool_decide_eq_true_2 _ Hmsg), Hvk. cbn [negb].
    rewrite run_bind, check_emulating_eq, (bool_decide_eq_true_2 _ Hin).
    done.
  - intros msg data Hmsg Hname. unfold create_mouse_filter.
    rewrite (bool_decide_eq_true_2 _ Hmsg), Hname. cbn [negb].
    rewrite run_bind, check_emulating_eq, (bool_decide_eq_true_2 _ Hin).
    done.
  - destruct m. unfold _keyboard_keydown, in_core, is_emulating. unfold_m.
    cbn in *. by rewrite (bool_decide_eq_true_2 _ Hin).
  - destruct m. unfold _keyboard_keyup, in_core, is_emulating. unfold_m.
    cbn in *. by rewrite (bool_decide_eq_true_2 _ Hin).
  - cbn. rewrite elem_of_difference, elem_of_singleton. by intros [_ ?].
Qed.

(** C5 (as amended).  A keyboard event whose name is in the Restoring Set
    is swallowed by the Windows keyboard filter and by the two key callbacks:
    they return normally, nothing is routed to a trigger task and no task is
    touched.  On an "up" event the Restoring Set entry is cleared provided
    the name is not also in the Emulation Set (in which case the emulating
    flag is cleared instead). *)
Theorem restoring_keyboard_events_are_swallowed m key_name :
  key_name ∈ _restoring_keys (core m) →
  (∀ msg vk,
     msg ∈ KEYBOARD_MESSAGES → vk_to_name vk = Some key_name →
     let r := create_keyboard_filter msg vk m in
     r.1 = Ok true ∧ routed r.2 = routed m
     ∧ tasks (core r.2) = tasks (core m)
     ∧ queue_in (core r.2) = queue_in (core m)
     ∧ (is_key_up msg = true → key_name ∉ _emulating_keys (core m) →
        r.2 = clear_restoring key_name m))
  ∧ (let r := _keyboard_keydown key_name m in r = (Ok tt, m))
  ∧ (let r := _keyboard_keyup key_name m in
     r.1 = Ok tt ∧ routed r.2 = routed m
     ∧ tasks (core r.2) = tasks (core m)
     ∧ queue_in (core r.2) = queue_in (core m)
     ∧ (key_name ∉ _emulating_keys (core m) →
        r.2 = clear_restoring key_name m))
  ∧ key_name ∉ _restoring_keys (core (clear_restoring key_name m)).
Proof.
  intros Hin. split; [|split; [|split]].
  - intros msg vk Hmsg Hvk r. subst r. unfold create_keyboard_filter.
    rewrite (bool_decide_eq_true_2 _ Hmsg), Hvk. cbn [negb].
    rewrite run_bind, check_emulating_eq.
    destruct (bool_decide (key_name ∈ _emulating_keys (core m))) eqn:Ee.
    + apply bool_decide_eq_true_1 in Ee.
      destruct (is_key_up msg); cbn; repeat split; done.
    + apply bool_decide_eq_false_1 in Ee.
      rewrite run_bind, check_restoring_eq, (bool_decide_eq_true_2 _ Hin).
      destruct (is_key_up msg); cbn; repeat split; done.
  - destruct m. unfold _keyboard_keydown, in_core, is_emulating, is_restoring.
    unfold_m. cbn in *.
    destruct (bool_decide (key_name ∈ _emulating_keys core0)); cbn; [done|].
    by rewrite (bool_decide_eq_true_2 _ Hin).
  - destruct m. unfold _keyboard_keyup, in_core, is_emulating, is_restoring,
      clear_emulating_flag, clear_restoring_flag, clear_restoring.
    unfold_m. cbn in *.
    destruct (bool_decide (key_name ∈ _emulating_keys core0)) eqn:Ee; cbn.
    + apply bool_decide_eq_true_1 in Ee. repeat split; done.
    + rewrite (bool_decide_eq_true_2 _ Hin). cbn. repeat split; done.
  - cbn. rewrite elem_of_difference, elem_of_singleton. by intros [_ ?].
Qed.




(** The emulator's mouse operation only marks the flag. *)
Lemma emulate_mouse_click_eq b c :
  emulate_mouse_click b c =
    (Ok tt, set__emulating_keys (λ s, s ∪ {[b]}) c).
Proof. reflexivity. Qed.

Lemma emulate_mouse_click_flag b c :
  b ∈ _emulating_keys (emulate_mouse_click b c).2
  ∧ os_presses (emulate_mouse_click b c).2 = os_presses c
  ∧ (run_job (JEmulateMouseClick b) c) = emulate_mouse_click b c.
Proof.
  rewrite emulate_mouse_click_eq. cbn. split; [|done].
  rewrite elem_of_union, elem_of_singleton. by right.
Qed.

End DispatchProps.

(** ** Chords *)

Section ChordProps.
Context {KM : KeyMapper} {EH : ShortcutEventHandler} {SL : StrLower}.











(** A chord with at least one member starts in sync: nothing is held and
    the chord is inactive. *)
Lemma new_combo_in_sync k ks sup : ks ≠ ∅ → in_sync ∅ (new_combo k ks sup).
Proof.
  intros Hne. unfold in_sync, all_held. cbn. symmetry.
  apply bool_decide_eq_false_2. intros Hsub. apply Hne.
  apply leibniz_equiv. set_solver.
Qed.

Lemma setup_shortcut_in_sync scs :
  (∀ sc, sc ∈ scs → enabled sc = true → type sc = keyboard →
         has_plus (key sc) = true → chord_keys (key sc) ≠ ∅) →
  ∀ acc, Forall (in_sync ∅) acc.2 →
         Forall (in_sync ∅) (foldl setup_shortcut acc scs).2.
Proof.
  induction scs as [|sc scs IH]; intros Hne [hooks combos] Hacc; [done|].
  cbn [foldl]. apply IH.
  - intros sc' Hin. apply Hne. by apply elem_of_cons; right.
  - unfold setup_shortcut.
    destruct (enabled sc) eqn:Een; cbn [negb]; [|done].
    destruct (type sc) eqn:Ety; [|done].
    destruct (has_plus (key sc)) eqn:Epl; [|done].
    cbn. apply Forall_app. split; [done|]. apply Forall_singleton.
    apply new_combo_in_sync, Hne; [by apply elem_of_cons; left|done..].
Qed.

(** [_setup_keyboard_lib_hooks] leaves the tracker in sync when every chord
    it registers has at least one member. *)
Lemma setup_in_sync m :
  (∀ sc, sc ∈ shortcuts m → enabled sc = true → type sc = keyboard →
         has_plus (key sc) = true → chord_keys (key sc) ≠ ∅) →
  combos_in_sync (_setup_keyboard_lib_hooks m).2.
Proof.
  intros Hne. unfold _setup_keyboard_lib_hooks. rewrite run_bind. cbn [get].
  pose proof (setup_shortcut_in_sync (shortcuts m) Hne ([], [])
                (Forall_nil_2 _)) as H.
  destruct (foldl setup_shortcut ([], []) (shortcuts m)) as [hooks combos].
  exact H.
Qed.

End ChordProps.

(** ** The concrete configuration at work *)

(** C8.  A short press of the suppressed side button [x1] on Windows: the
    release cancels the capture and submits the re-press job; the worker
    runs it, which synthesizes nothing and leaves ["x1"] in the Emulation
    Set; the next real press of [x1] is then swallowed -- it is not routed,
    no [begin] is queued, and the flag is still set afterwards. *)
Theorem mouse_click_emulation_blocks_next_press :
  let m0 := sample_manager "Windows" true in
  let m1 := (create_mouse_filter 523 65536 m0).2 in
  let m2 := (create_mouse_filter 524 65536 m1).2 in
  let m3 := set_core (λ c, (run_job (JEmulateMouseClick "x1") c).2) m2 in
  let m4 := (create_mouse_filter 523 65536 m3).2 in
  routed m1 = [(Down, "x1")]
  ∧ _pool (core m2) = [JEmulateMouseClick "x1"]
  ∧ os_presses (core m3) = []
  ∧ bool_decide ("x1" ∈ _emulating_keys (core m3)) = true
  ∧ routed m4 = routed m3
  ∧ queue_in (core m4) = queue_in (core m3)
  ∧ bool_decide ("x1" ∈ _emulating_keys (core m4)) = true.
Proof. vm_compute. repeat split. Qed.

(** Membership and inequality facts on concrete data are decided by
    evaluation. *)
Ltac by_eval := apply (bool_decide_unpack _); vm_compute; exact I.

(** *** The string helpers on the chord of the configuration *)

Example split_plus_chord :
  split_plus "ctrl + alt+h" = ["ctrl "; " alt"; "h"].
Proof. reflexivity. Qed.

Example strip_part : strip " alt" = "alt" ∧ strip "ctrl " = "ctrl".
Proof. split; reflexivity. Qed.

Example chord_keys_chord :
  chord_keys "ctrl + alt+h" = {["ctrl"; "alt"; "h"]}.
Proof. apply (bool_decide_unpack _). vm_compute. exact I. Qed.

(** *** C1 on a concrete store *)

Lemma emulated_events_are_swallowed_witness :
  "caps_lock" ∈ _emulating_keys (core restore_in_flight)
  ∧ create_keyboard_filter 257 20 restore_in_flight =
      (Ok true,
       if is_key_up 257 then clear_emulating "caps_lock" restore_in_flight
       else restore_in_flight).
Proof.
  assert (H : "caps_lock" ∈ _emulating_keys (core restore_in_flight))
    by by_eval.
  split; [exact H|].
  apply (emulated_events_are_swallowed restore_in_flight "caps_lock" H);
    [by_eval|reflexivity].
Defined.

(** *** C2 on a concrete store *)

Lemma action_sink_protocol_witness :
  let c := core (sample_manager "Windows" true) in
  tasks c !! "x1" = Some (task_at "x1" c)
  ∧ queue_in (launch "x1" c).2 = queue_in c ++ [begin_item (clock (world c) (time_reads c))]
  ∧ queue_in (cancel "x1" c).2 = queue_in c.
Proof.
  intros c.
  assert (H : tasks c !! "x1" = Some (task_at "x1" c))
    by (vm_compute; reflexivity).
  split; [exact H|].
  pose proof (action_sink_protocol "x1" c (task_at "x1" c) H) as P.
  split; [exact (proj1 (proj1 P))|exact (proj1 (proj2 (proj2 P)))].
Defined.

(** *** C3 on a concrete store: released 10 ticks after the press, with a
    threshold of 30 *)

Lemma hold_release_threshold_witness :
  let c := launched "Windows" true "x1" in
  let t := task_at "x1" c in
  tasks c !! "x1" = Some t
  ∧ hold_mode (shortcut t) = true ∧ is_recording t = true
  ∧ (_handle_mouse_keyup "x1" c).1 = Ok tt
  ∧ _pool (_handle_mouse_keyup "x1" c).2 = [JEmulateMouseClick "x1"]
  ∧ queue_in (_handle_mouse_keyup "x1" c).2 = queue_in c.
Proof.
  intros c t.
  assert (H1 : tasks c !! "x1" = Some t) by (vm_compute; reflexivity).
  assert (H2 : hold_mode (shortcut t) = true) by (vm_compute; reflexivity).
  assert (H3 : is_recording t = true) by (vm_compute; reflexivity).
  repeat (split; [assumption|]).
  pose proof (hold_release_threshold "x1" c t H1 H2 H3) as P.
  cbv zeta in P. destruct P as (_ & P2 & _).
  assert (Hlt : (clock (world c) (time_reads c) - recording_start_time t
                 < threshold t)%Z) by (vm_compute; reflexivity).
  destruct (P2 Hlt) as (Q1 & Q2).
  destruct (Q2 0%nat ltac:(vm_compute; reflexivity)) as (R1 & _ & _ & R4).
  split; [exact R1|]. split; [|exact Q1].
  rewrite R4. vm_compute. reflexivity.
Defined.

(** *** C4 on a concrete store: caps-lock off Windows, no snapshot *)

Lemma toggle_restore_policy_witness :
  let c := core (sample_manager "Linux" true) in
  let t := task_at "caps_lock" c in
  tasks c !! "caps_lock" = Some t
  ∧ is_toggle_key (shortcut t) = true
  ∧ _pool (finish "caps_lock" c).2 = [JDoRestore "caps_lock"].
Proof.
  intros c t.
  assert (H1 : tasks c !! "caps_lock" = Some t) by (vm_compute; reflexivity).
  assert (H2 : is_toggle_key (shortcut t) = true) by (vm_compute; reflexivity).
  repeat (split; [assumption|]).
  pose proof (toggle_restore_policy "caps_lock" c t H1 H2) as P.
  cbv zeta in P. destruct P as ((P1 & _) & _).
  rewrite P1. vm_compute. reflexivity.
Defined.

(** *** C7 on a concrete store: caps-lock off Windows, toggle state
    unchanged between press and release *)

Lemma restore_at_most_once_witness :
  let c := launched "Linux" true "caps_lock" in
  let t := task_at "caps_lock" c in
  tasks c !! "caps_lock" = Some t
  ∧ snapshot_off_windows c t
  ∧ _toggle_state_at_press t = Some true
  ∧ live_toggle c t = Some true
  ∧ _pool (finish "caps_lock" c).2 = _pool c
  ∧ _pool (cancel "caps_lock" c).2 = _pool c.
Proof.
  intros c t.
  assert (H1 : tasks c !! "caps_lock" = Some t) by (vm_compute; reflexivity).
  assert (H2 : snapshot_off_windows c t).
  { intros Hw. vm_compute in Hw. discriminate Hw. }
  assert (H3 : _toggle_state_at_press t = Some true)
    by (vm_compute; reflexivity).
  assert (H4 : live_toggle c t = Some true) by (vm_compute; reflexivity).
  repeat (split; [assumption|]).
  destruct (restore_at_most_once "caps_lock" c t H1 H2) as (_ & _ & _ & P).
  destruct (P true H3 H4) as (Q1 & _ & Q3 & _).
  split; [exact Q1|exact Q3].
Defined.

(** *** C10 on a concrete store: the recorder cannot be constructed *)

Lemma cancel_needs_handle_witness :
  let m := sample_manager "Windows" false in
  let t := task_at "x1" (core m) in
  tasks (core m) !! "x1" = Some t
  ∧ task t = None
  ∧ (cancel "x1" (core m)).1 = Raise no_cancel_attr
  ∧ (cancel "x1" (launch "x1" (core m)).2).1 = Raise no_cancel_attr.
Proof.
  intros m t.
  assert (H1 : tasks (core m) !! "x1" = Some t) by (vm_compute; reflexivity).
  assert (H2 : task t = None) by (vm_compute; reflexivity).
  repeat (split; [assumption|]).
  pose proof (cancel_needs_handle m "x1" t H1) as P. cbv zeta in P.
  destruct P as (P1 & _ & P3 & _).
  split; [by apply P1|].
  by apply (P3 H2 eq_refl).
Defined.

(** *** C5: the claim as stated fails, the amended one on a concrete store *)

(** With a restore of caps-lock in flight, the release of the synthesized
    key clears the emulating flag and not the Restoring Set entry; and the
    mouse filter, which never looks at the Restoring Set, routes a press of
    [x1] to its task although ["x1"] is in the set. *)
Lemma restoring_set_not_always_honoured :
  (bool_decide ("caps_lock" ∈ _restoring_keys (core restore_in_flight)) = true
   ∧ bool_decide
       ("caps_lock" ∈
          _restoring_keys (core (create_keyboard_filter 257 20 restore_in_flight).2))
     = true
   ∧ bool_decide
       ("caps_lock" ∈
          _restoring_keys (core (_keyboard_keyup "caps_lock" restore_in_flight).2))
     = true)
  ∧ (bool_decide ("x1" ∈ _restoring_keys (core x1_restoring)) = true
     ∧ routed (create_mouse_filter 523 65536 x1_restoring).2 = [(Down, "x1")]
     ∧ queue_in (core (create_mouse_filter 523 65536 x1_restoring).2)
       = [begin_item 0]).
Proof. vm_compute. repeat split. Qed.

Lemma restoring_keyboard_events_are_swallowed_witness :
  let m := with_core (schedule_restore "caps_lock" (core x1_restoring)).2
             x1_restoring in
  "caps_lock" ∈ _restoring_keys (core m)
  ∧ (create_keyboard_filter 257 20 m).1 = Ok true
  ∧ routed (create_keyboard_filter 257 20 m).2 = routed m
  ∧ (create_keyboard_filter 257 20 m).2 = clear_restoring "caps_lock" m.
Proof.
  intros m.
  assert (H : "caps_lock" ∈ _restoring_keys (core m)) by by_eval.
  split; [exact H|].
  destruct (restoring_keyboard_events_are_swallowed m "caps_lock" H)
    as (P & _).
  destruct (P 257 20 ltac:(by_eval) eq_refl) as (Q1 & Q2 & _ & _ & Q5).
  split; [exact Q1|]. split; [exact Q2|].
  apply Q5; [reflexivity|by_eval].
Defined.

(** *** C6: the claim as stated fails, the amended one on a concrete store *)



(** *** C9 on a concrete run *)


(** * Further properties of the modelled code *)

(** ** The emulator and the restore bookkeeping *)

Section EmulatorProps.
Context {KM : KeyMapper} {EH : ShortcutEventHandler}.

Lemma diff_union_singleton (s : gset string) k :
  (s ∪ {[k]}) ∖ {[k]} = s ∖ {[k]}.
Proof.
  apply set_eq. intros x.
  rewrite !elem_of_difference, elem_of_union, elem_of_singleton. tauto.
Qed.

(** X1. [emulate_key] never raises.  Afterwards the name is in the
    Emulation Set whether or not the backend synthesized the key; the key is
    synthesized once when the backend succeeds and not at all when it fails;
    tasks, queue, pool and Restoring Set are untouched. *)
Theorem emulate_key_outcome k c :
  let r := emulate_key k c in
  let lib_name := internal_to_keyboard_lib_name k in
  r.1 = Ok tt
  ∧ _emulating_keys r.2 = _emulating_keys c ∪ {[k]}
  ∧ k ∈ _emulating_keys r.2
  ∧ os_presses r.2 =
      os_presses c
        ++ (if press_and_release_ok (world c) lib_name then [lib_name] else [])
  ∧ tasks r.2 = tasks c ∧ queue_in r.2 = queue_in c
  ∧ _pool r.2 = _pool c ∧ _restoring_keys r.2 = _restoring_keys c.
Proof.
  unfold emulate_key. unfold_m. cbn.
  destruct (press_and_release_ok (world c) (internal_to_keyboard_lib_name k));
    cbn; rewrite ?app_nil_r; repeat split;
    rewrite elem_of_union, elem_of_singleton; by right.
Qed.

(** X2. Emulating a key and then seeing its own events.  After
    [emulate_key k] the press of [k] reaching [_keyboard_keydown] changes
    nothing, and the release reaching [_keyboard_keyup] returns with [k] out
    of the Emulation Set and every other name's membership as it was before
    the emulation; no trigger task is called and none is changed.  The flag
    is a set entry, not a counter: this holds also when [k] was already
    flagged. *)
Theorem emulate_then_own_events m k :
  let m1 := with_core (emulate_key k (core m)).2 m in
  let r := _keyboard_keyup k m1 in
  _keyboard_keydown k m1 = (Ok tt, m1)
  ∧ r.1 = Ok tt
  ∧ _emulating_keys (core r.2) = _emulating_keys (core m) ∖ {[k]}
  ∧ (∀ j, j ≠ k → j ∈ _emulating_keys (core r.2) ↔ j ∈ _emulating_keys (core m))
  ∧ routed r.2 = routed m
  ∧ tasks (core r.2) = tasks (core m)
  ∧ _restoring_keys (core r.2) = _restoring_keys (core m).
Proof.
  destruct (emulate_key_outcome k (core m))
    as (_ & He & Hin & _ & Ht & _ & _ & Hr).
  cbn zeta in *.
  set (c1 := (emulate_key k (core m)).2) in *.
  destruct m as [? ? ? ? ? ? ? ? c ? ?]. cbn in *.
  unfold _keyboard_keydown, _keyboard_keyup, in_core, is_emulating,
    clear_emulating_flag, with_core.
  unfold_m. cbn. rewrite (bool_decide_eq_true_2 _ Hin). cbn.
  rewrite He, diff_union_singleton. repeat split; try done.
  - rewrite elem_of_difference, elem_of_singleton. tauto.
  - rewrite elem_of_difference, elem_of_singleton. tauto.
Qed.

(** X3. A complete restore of key [k].  [schedule_restore k] enters [k] in
    the Restoring Set and submits one job; the worker running that job
    ([do_restore]) emulates the key and then itself removes [k] from the
    Restoring Set; the synthesized press and release, seen by the key
    callbacks, are swallowed.  At the end [k] is in neither set, nothing was
    routed to a trigger task and no task changed. *)
Theorem restore_cycle m k :
  let c1 := (schedule_restore k (core m)).2 in
  let c2 := (run_job (JDoRestore k) c1).2 in
  let m2 := with_core c2 m in
  let r := _keyboard_keyup k m2 in
  (k ∈ _restoring_keys c1 ∧ _pool c1 = _pool (core m) ++ [JDoRestore k])
  ∧ ((run_job (JDoRestore k) c1).1 = Ok tt
     ∧ _restoring_keys c2 = _restoring_keys (core m) ∖ {[k]}
     ∧ _emulating_keys c2 = _emulating_keys (core m) ∪ {[k]})
  ∧ _keyboard_keydown k m2 = (Ok tt, m2)
  ∧ (r.1 = Ok tt
     ∧ _emulating_keys (core r.2) = _emulating_keys (core m) ∖ {[k]}
     ∧ _restoring_keys (core r.2) = _restoring_keys (core m) ∖ {[k]}
     ∧ routed r.2 = routed m
     ∧ tasks (core r.2) = tasks (core m)
     ∧ queue_in (core r.2) = queue_in (core m)).
Proof.
  destruct m as [? ? ? ? ? ? ? ? c ? ?]. cbn [core].
  unfold run_job, do_restore, schedule_restore, submit, emulate_key,
    clear_restoring_flag, _keyboard_keydown, _keyboard_keyup, in_core,
    is_emulating, clear_emulating_flag, with_core.
  unfold_m. cbn.
  assert (Hin : k ∈ _emulating_keys c ∪ {[k]}).
  { rewrite elem_of_union, elem_of_singleton. by right. }
  destruct (press_and_release_ok (world c) (internal_to_keyboard_lib_name k));
    cbn; rewrite (bool_decide_eq_true_2 _ Hin); cbn;
    rewrite !diff_union_singleton; repeat split;
    rewrite elem_of_union, elem_of_singleton; by right.
Qed.

End EmulatorProps.

(** ** Trigger tasks *)

Section TaskIsolation.
Context {KM : KeyMapper}.

Lemma touches_ret {A} k (a : A) : touches_only k (mret a : M Core A).
Proof. intros c. by split. Qed.

Lemma touches_raise {A} k e : touches_only k (raise e : M Core A).
Proof. intros c. by split. Qed.

Lemma touches_gets {A} k (f : Core → A) : touches_only k (gets f).
Proof. intros c. by split. Qed.

Lemma touches_get k : touches_only k (get : M Core Core).
Proof. intros c. by split. Qed.

Lemma touches_self k j : touches_only k (self_ j).
Proof. intros c. unfold self_. by destruct (tasks c !! j). Qed.

Lemma touches_modify k (f : Core → Core) :
  (∀ c, tasks (f c) = tasks c) → touches_only k (modify f).
Proof. intros Hf c. cbn. by rewrite Hf. Qed.

Lemma touches_assign k (f : ShortcutTask → ShortcutTask) :
  (∀ t, shortcut (f t) = shortcut t) → touches_only k (assign k f).
Proof.
  intros Hf c. cbn. split.
  - intros j Hne. by rewrite lookup_alter_ne.
  - intros j. rewrite lookup_alter. case_decide as E; [subst j|done].
    destruct (tasks c !! k); cbn; by rewrite ?Hf.
Qed.

Lemma touches_bind {A B} k (m : M Core A) (f : A → M Core B) :
  touches_only k m → (∀ a, touches_only k (f a)) → touches_only k (m ≫= f).
Proof.
  intros Hm Hf c. rewrite run_bind. destruct (Hm c) as [H1 H2].
  destruct (m c) as [[a|e] c1]; cbn in *; [|done].
  destruct (Hf a c1) as [H3 H4]. split.
  - intros j Hne. by rewrite H3, H1.
  - intros j. by rewrite H4, H2.
Qed.

Lemma touches_when k b (m : M Core unit) :
  touches_only k m → touches_only k (when b m).
Proof. intros Hm. destruct b; [done|]. apply touches_ret. Qed.

(** Decompose a method into the primitives above. *)
Ltac touch :=
  repeat first
    [ apply touches_ret | apply touches_raise | apply touches_gets
    | apply touches_get | apply touches_self
    | apply touches_assign; by intros
    | apply touches_modify; by intros
    | apply touches_when
    | apply touches_bind; [|intros]
    | match goal with
      | |- touches_only _ (if ?b then _ else _) => destruct b
      | |- touches_only _ (match ?x with _ => _ end) => destruct x
      end ].

Lemma touches_restore_if_needed k : touches_only k (_restore_key_if_needed k).
Proof.
  unfold _restore_key_if_needed, _restore_key, schedule_restore, submit,
    on_windows, read_toggled.
  touch.
Qed.

Lemma touches_cancel k : touches_only k (cancel k).
Proof.
  unfold cancel, future_cancel. touch; apply touches_restore_if_needed.
Qed.

Lemma touches_finish k : touches_only k (finish k).
Proof.
  unfold finish, time_time, queue_put. touch; apply touches_restore_if_needed.
Qed.

Lemma touches_launch k : touches_only k (launch k).
Proof.
  unfold launch, time_time, queue_put, _get_recorder, run_record_and_send,
    on_windows, read_toggled.
  touch.
Qed.

(** X5. Per-trigger isolation.  [launch], [finish], [cancel] and
    [_handle_mouse_keyup] for the task stored under [k] leave every other
    task exactly as it was and never change the configuration ([shortcut])
    of any task, on every store and whether they return or raise. *)
Theorem task_methods_are_isolated k :
  touches_only k (launch k) ∧ touches_only k (finish k)
  ∧ touches_only k (cancel k) ∧ touches_only k (_handle_mouse_keyup k).
Proof.
  split; [apply touches_launch|]. split; [apply touches_finish|].
  split; [apply touches_cancel|].
  unfold _handle_mouse_keyup, time_time, submit.
  touch; (apply touches_cancel || apply touches_finish).
Qed.

(** X7. A release on a click-mode task is bookkeeping only: the handler
    returns; when the task was marked pressed it becomes not pressed,
    released, with its event set, and is otherwise unchanged; queue, pool,
    futures, the clock and the two sets are untouched, so nothing is
    started, finished or cancelled.  On a hold-mode task that is not
    recording a release changes nothing at all. *)
Theorem release_without_recording k c t :
  tasks c !! k = Some t →
  (hold_mode (shortcut t) = false →
   let r := _handle_mouse_keyup k c in
   r.1 = Ok tt
   ∧ tasks r.2 !! k =
       Some (if pressed t
             then set_event true (set_released true (set_pressed false t))
             else t)
   ∧ queue_in r.2 = queue_in c ∧ _pool r.2 = _pool c
   ∧ futures r.2 = futures c ∧ time_reads r.2 = time_reads c
   ∧ _emulating_keys r.2 = _emulating_keys c
   ∧ _restoring_keys r.2 = _restoring_keys c)
  ∧ (hold_mode (shortcut t) = true → is_recording t = false →
     _handle_mouse_keyup k c = (Ok tt, c)).
Proof.
  intros Hk. split.
  - intros Hh. unfold _handle_mouse_keyup, self_.
    rewrite run_bind, Hk, Hh. cbn [negb].
    destruct (pressed t); unfold assign; unfold_m; cbn;
      rewrite ?lookup_alter_eq, Hk; done.
  - intros Hh Hr. unfold _handle_mouse_keyup, self_.
    by rewrite run_bind, Hk, Hh, Hr.
Qed.

End TaskIsolation.

(** ** Registration of the tasks *)

Section InitTasks.

Lemma init_tasks_foldl thr (scs : list Shortcut) :
  ∀ (acc : gmap string ShortcutTask) k,
    foldl (λ ts sc,
             if enabled sc then <[key sc := new_task sc thr]> ts else ts)
          acc scs !! k =
      match last (filter (λ sc, enabled sc = true ∧ key sc = k) scs) with
      | Some sc => Some (new_task sc thr)
      | None => acc !! k
      end.
Proof.
  induction scs as [|sc scs IH]; intros acc k; [done|].
  cbn [foldl]. rewrite IH, filter_cons.
  destruct (decide (enabled sc = true ∧ key sc = k)) as [[He Hkey]|Hn].
  - rewrite last_cons, He.
    destruct (last (filter _ scs)); [done|].
    by rewrite <- Hkey, lookup_insert_eq.
  - destruct (last (filter _ scs)); [done|].
    destruct (enabled sc) eqn:He; [|done].
    rewrite lookup_insert_ne; [done|]. intros Hkey. by apply Hn.
Qed.


(** X4. [_init_tasks] registers, under each key, the task of the last
    enabled shortcut that has this key, and nothing under a key that no
    enabled shortcut has.  Every registered task is stored under its own
    shortcut's key and starts idle: not recording, no capture handle, no
    snapshot, its threshold taken from the shortcut. *)
Theorem init_tasks_lookup thr scs k :
  _init_tasks thr scs !! k =
    (λ sc, new_task sc thr)
      <$> last (filter (λ sc, enabled sc = true ∧ key sc = k) scs)
  ∧ ∀ t, _init_tasks thr scs !! k = Some t →
         key (shortcut t) = k ∧ enabled (shortcut t) = true
         ∧ shortcut t ∈ scs
         ∧ is_recording t = false ∧ task t = None
         ∧ _toggle_state_at_press t = None
         ∧ threshold t = get_threshold (shortcut t) thr.
Proof.
  assert (E : _init_tasks thr scs !! k =
    (λ sc, new_task sc thr)
      <$> last (filter (λ sc, enabled sc = true ∧ key sc = k) scs)).
  { unfold _init_tasks. rewrite init_tasks_foldl.
    by destruct (last _). }
  split; [exact E|]. intros t. rewrite E.
  destruct (last _) as [sc|] eqn:El; [|done]. intros [= <-].
  apply last_Some in El as [l' El].
  assert (Hin : sc ∈ filter (λ sc, enabled sc = true ∧ key sc = k) scs).
  { rewrite El. apply elem_of_app. right. by apply list_elem_of_singleton. }
  apply list_elem_of_filter in Hin as [[He Hkey] Hin]. by cbn.
Qed.

End InitTasks.

(** ** Shutdown and startup *)

Section StopProps.
Context {KM : KeyMapper} {EH : ShortcutEventHandler}.

Lemma pool_shutdown_resolved t c :
  _pool_shutdown (resolved t c) = _pool_shutdown c.
Proof. unfold resolved. by destruct (_ && _). Qed.

(** One round of the loop of [stop] on a task that can be cancelled. *)
Lemma stop_round_ok j x m t :
  tasks (core m) !! j = Some t →
  (is_recording t = true → is_Some (task t)) →
  ∃ m', stop_round (j, x) m = (Ok tt, m')
        ∧ (∃ t', tasks (core m') !! j = Some t' ∧ is_recording t' = false)
        ∧ _pool_shutdown (core m') = _pool_shutdown (core m)
        ∧ keyboard_listener m' = keyboard_listener m
        ∧ mouse_listener m' = mouse_listener m
        ∧ _keyboard_hooks m' = _keyboard_hooks m
        ∧ _combo_hook m' = _combo_hook m
        ∧ _is_windows m' = _is_windows m.
Proof.
  intros Hj Hh. unfold stop_round, in_core, zoom, self_. rewrite run_bind.
  cbn [fst]. rewrite Hj. cbn [snd].
  destruct (is_recording t) eqn:Er; cbn [when].
  - destruct (Hh eq_refl) as [fut Hf].
    rewrite (cancel_eq j (core m) t Hj), Hf.
    eexists. split; [reflexivity|]. cbn.
    rewrite tasks_resolved, pool_shutdown_resolved. cbn.
    rewrite !lookup_alter_eq, Hj. cbn. eauto 10.
  - eexists. split; [reflexivity|]. cbn. rewrite Hj. eauto 10.
Qed.

Lemma stop_loop_ok (l : list (string * ShortcutTask)) :
  ∀ m,
    NoDup l.*1 →
    (∀ j, j ∈ l.*1 →
          ∃ t, tasks (core m) !! j = Some t
               ∧ (is_recording t = true → is_Some (task t))) →
    ∃ m', for_each l stop_round m = (Ok tt, m')
          ∧ (∀ j, j ∈ l.*1 →
                  ∃ t', tasks (core m') !! j = Some t'
                        ∧ is_recording t' = false)
          ∧ (∀ j, j ∉ l.*1 → tasks (core m') !! j = tasks (core m) !! j)
          ∧ _pool_shutdown (core m') = _pool_shutdown (core m)
          ∧ keyboard_listener m' = keyboard_listener m
          ∧ mouse_listener m' = mouse_listener m
          ∧ _keyboard_hooks m' = _keyboard_hooks m
          ∧ _combo_hook m' = _combo_hook m
          ∧ _is_windows m' = _is_windows m.
Proof.
  induction l as [|[j x] l IH]; intros m Hnd Hall.
  - exists m. cbn. split; [done|]. split; [|done].
    intros j Hj. by apply elem_of_nil in Hj.
  - cbn in Hnd. apply NoDup_cons in Hnd as [Hj Hnd].
    destruct (Hall j) as (t & Ht & Hh); [by apply elem_of_cons; left|].
    destruct (stop_round_ok j x m t Ht Hh)
      as (m1 & E1 & (t1 & Ht1 & Hr1) & Hp1 & Hk1 & Hm1 & Hh1 & Hc1 & Hw1).
    assert (Hframe : ∀ i, i ≠ j → tasks (core m1) !! i = tasks (core m) !! i).
    { intros i Hne. pose proof (stop_round_frame j x i m) as Hf.
      rewrite E1 in Hf. apply Hf. congruence. }
    destruct (IH m1 Hnd) as (m' & E & Hin & Hout & Hp & Hk & Hm & Hh' & Hc & Hw).
    { intros i Hi. rewrite Hframe by (intros ->; done).
      apply Hall. by apply elem_of_cons; right. }
    exists m'. cbn [for_each]. unfold bind. rewrite E1, E.
    split; [done|]. split; [|split].
    + intros i Hi. cbn in Hi. apply elem_of_cons in Hi as [->|Hi].
      * rewrite Hout by done. eauto.
      * by apply Hin.
    + intros i Hi. cbn in Hi. apply not_elem_of_cons in Hi as [Hne Hi].
      rewrite Hout by done. by apply Hframe.
    + by rewrite Hp, Hk, Hm, Hh', Hc, Hw.
Qed.

Lemma release_listeners_spec m :
  ∃ m', release_listeners m = (Ok tt, m')
        ∧ core m' = core m ∧ _is_windows m' = _is_windows m
        ∧ shortcuts m' = shortcuts m
        ∧ listeners_released m'
        ∧ (_is_windows m = true →
           _keyboard_hooks m' = _keyboard_hooks m
           ∧ _combo_hook m' = _combo_hook m)
        ∧ (_is_windows m = false →
           keyboard_listener m' = keyboard_listener m
           ∧ mouse_listener m' = mouse_listener m).
Proof.
  unfold release_listeners. rewrite run_bind. cbn [get].
  destruct m as [? w kl ml ? ? ? ? ? ? ?].
  destruct w; eexists; (split; [reflexivity|]); cbn;
    (split; [done|]); (split; [done|]); (split; [done|]);
    unfold listeners_released; cbn; (split; [|done]); [|done].
  split; intros l.
  - destruct kl; cbn; [|done]. by intros [= <-].
  - destruct ml; cbn; [|done]. by intros [= <-].
Qed.

(** [stop] on a manager whose recording tasks all hold their handle. *)
Lemma stop_ok m :
  recording_have_handles (core m) →
  ∃ m', stop m = (Ok tt, m')
        ∧ (∀ k t', tasks (core m') !! k = Some t' → is_recording t' = false)
        ∧ (∀ k, is_Some (tasks (core m') !! k) ↔ is_Some (tasks (core m) !! k))
        ∧ _pool_shutdown (core m') = true
        ∧ _is_windows m' = _is_windows m
        ∧ listeners_released m'
        ∧ (_is_windows m = true →
           _keyboard_hooks m' = _keyboard_hooks m
           ∧ _combo_hook m' = _combo_hook m)
        ∧ (_is_windows m = false →
           keyboard_listener m' = keyboard_listener m
           ∧ mouse_listener m' = mouse_listener m).
Proof.
  intros Hall. unfold stop. rewrite run_bind.
  destruct (release_listeners_spec m)
    as (m1 & -> & Hc1 & Hw1 & _ & Hrel & Hwin & Hlin).
  rewrite run_bind. cbn [get]. rewrite run_bind, Hc1.
  destruct (stop_loop_ok (map_to_list (tasks (core m))) m1)
    as (m2 & -> & Hin & Hout & Hp & Hk & Hm & Hh & Hc & Hw).
  { apply NoDup_fst_map_to_list. }
  { intros j Hj. apply list_elem_of_fmap in Hj as ([j' t] & -> & Hjt).
    apply elem_of_map_to_list in Hjt. rewrite Hc1. exists t. split; [done|].
    by apply (Hall j'). }
  assert (Hdom : ∀ j, j ∈ (map_to_list (tasks (core m))).*1
                      ↔ is_Some (tasks (core m) !! j)).
  { intros j. rewrite list_elem_of_fmap. split.
    - intros ([j' t] & -> & Hjt). apply elem_of_map_to_list in Hjt. eauto.
    - intros [t Ht]. exists (j, t). split; [done|].
      by apply elem_of_map_to_list. }
  eexists. split; [reflexivity|]. cbn.
  split; [|split; [|split; [done|split; [by rewrite Hw|]]]].
  - intros k t' Hk'.
    destruct (decide (k ∈ (map_to_list (tasks (core m))).*1)) as [Hi|Hi].
    + destruct (Hin k Hi) as (t'' & Ht'' & Hr). congruence.
    + rewrite Hout, Hc1 in Hk' by done. exfalso. apply Hi, Hdom. eauto.
  - intros k.
    destruct (decide (k ∈ (map_to_list (tasks (core m))).*1)) as [Hi|Hi].
    + destruct (Hin k Hi) as (t'' & Ht'' & Hr). rewrite Ht''.
      apply Hdom in Hi. split; eauto.
    + by rewrite Hout, Hc1.
  - unfold listeners_released in *. cbn. rewrite Hw, Hk, Hm, Hh, Hc.
    split; [exact Hrel|]. split.
    + intros Hwt. by apply Hwin.
    + intros Hwf. by apply Hlin.
Qed.

(** X10. [stop] returns exactly when every task that is recording holds its
    capture handle.  When it returns, no task is recording any more, the
    registered keys are the same, the pool is shut down, and the listeners
    of the platform are released (on Windows the pynput listeners are
    stopped, elsewhere the hooks are removed).  When it raises, the pool is
    not shut down. *)
Theorem stop_returns_iff m :
  ((stop m).1 = Ok tt ↔ recording_have_handles (core m))
  ∧ ((stop m).1 = Ok tt →
     (∀ k t', tasks (core (stop m).2) !! k = Some t' → is_recording t' = false)
     ∧ (∀ k, is_Some (tasks (core (stop m).2) !! k)
             ↔ is_Some (tasks (core m) !! k))
     ∧ _pool_shutdown (core (stop m).2) = true
     ∧ listeners_released (stop m).2)
  ∧ ((stop m).1 ≠ Ok tt →
     _pool_shutdown (core (stop m).2) = _pool_shutdown (core m)).
Proof.
  assert (Hiff : (stop m).1 = Ok tt ↔ recording_have_handles (core m)).
  { split.
    - intros Hok k t Hk Hr. destruct (task t) eqn:Hn; [done|].
      exfalso. revert Hok. unfold stop. rewrite run_bind.
      destruct (release_listeners_core m) as (m1 & -> & Hc).
      rewrite run_bind. cbn [get]. rewrite run_bind, Hc.
      destruct (stop_loop_raises (map_to_list (tasks (core m))) k m1 t)
        as [e He]; [|by rewrite Hc|done|done|].
      { apply list_elem_of_fmap. exists (k, t). split; [done|].
        by apply elem_of_map_to_list. }
      by destruct (for_each _ stop_round m1) as [[[]|e'] m2].
    - intros Hall. by destruct (stop_ok m Hall) as (m' & -> & _). }
  split; [exact Hiff|]. split.
  - intros Hok. apply Hiff in Hok.
    destruct (stop_ok m Hok) as (m' & -> & H1 & H2 & H3 & _ & H5 & _).
    done.
  - unfold stop. rewrite run_bind.
    destruct (release_listeners_core m) as (m1 & -> & Hc).
    rewrite run_bind. cbn [get]. rewrite run_bind, Hc.
    assert (Hpool : ∀ (l : list (string * ShortcutTask)) m0,
              _pool_shutdown (core (for_each l stop_round m0).2)
              = _pool_shutdown (core m0)).
    { induction l as [|[j x] l IH]; intros m0; [done|].
      cbn [for_each]. unfold bind.
      assert (Hs : _pool_shutdown (core (stop_round (j, x) m0).2)
                   = _pool_shutdown (core m0)).
      { unfold stop_round, in_core, zoom, self_. rewrite run_bind. cbn [fst].
        destruct (tasks (core m0) !! j) as [tj|] eqn:Hj; cbn; [|done].
        destruct (is_recording tj); cbn; [|done].
        rewrite (cancel_eq j (core m0) tj Hj).
        destruct (task tj); cbn; by rewrite ?pool_shutdown_resolved. }
      destruct (stop_round (j, x) m0) as [[[]|e] m1'];
        cbn in Hs |- *; [|done]. by rewrite IH. }
    specialize (Hpool (map_to_list (tasks (core m))) m1).
    destruct (for_each _ stop_round m1) as [[[]|e] m2];
      cbn in Hpool |- *; [done|]. intros _. by rewrite Hpool, Hc.
Qed.

End StopProps.

(** ** Hook setup *)

Section SetupProps.
Context {KM : KeyMapper} {EH : ShortcutEventHandler}.




(** Every part of a split string list is there. *)
Lemma split_plus_not_nil s : split_plus s ≠ [].
Proof.
  induction s as [|a s IH]; cbn; [done|].
  destruct (Ascii.eqb a "+"); [done|]. by destruct (split_plus s).
Qed.

Lemma split_plus_app a b :
  split_plus (a +:+ String "+"%char b) = split_plus a ++ split_plus b.
Proof.
  induction a as [|x a IH]; [done|].
  change (String x a +:+ String "+"%char b)
    with (String x (a +:+ String "+"%char b)).
  cbn [split_plus]. rewrite IH. destruct (Ascii.eqb x "+"); [done|].
  pose proof (split_plus_not_nil a). by destruct (split_plus a).
Qed.

(** X12. The members of a chord are those of its parts: for any two key
    strings, the chord written [a + "+" + b] has the members of [a] together
    with the members of [b].  Hence neither the order in which the members
    are written nor a repeated member makes a difference. *)
Theorem chord_keys_plus a b :
  chord_keys (a +:+ "+" +:+ b) = chord_keys a ∪ chord_keys b
  ∧ chord_keys (a +:+ "+" +:+ b) = chord_keys (b +:+ "+" +:+ a)
  ∧ chord_keys (a +:+ "+" +:+ a) = chord_keys a.
Proof.
  assert (E : ∀ x y, chord_keys (x +:+ "+" +:+ y)
                     = chord_keys x ∪ chord_keys y).
  { intros x y. unfold chord_keys.
    change (x +:+ "+" +:+ y) with (x +:+ String "+"%char y).
    rewrite split_plus_app, fmap_app, filter_app, fmap_app.
    apply list_to_set_app_L. }
  split; [apply E|]. split.
  - rewrite !E. apply set_eq. intros x. rewrite !elem_of_union. tauto.
  - rewrite E. apply set_eq. intros x. rewrite elem_of_union. tauto.
Qed.

End SetupProps.

(** ** Startup *)

Section StartProps.
Context {KM : KeyMapper} {EH : ShortcutEventHandler}.





End StartProps.

(** ** The filters on events that are not swallowed *)

Section FilterProps.
Context {KM : KeyMapper} {EH : ShortcutEventHandler}.

(** X8. Events for which no task is registered pass through.  A key with
    no name, a key name or button name that is in neither set and has no
    task: the filter returns [True] and the callbacks return, and the
    manager is exactly as before -- nothing routed, nothing suppressed.
    For the mouse filter the Restoring Set plays no part. *)
Theorem unregistered_events_pass_through m :
  (∀ msg vk, vk_to_name vk = None →
     create_keyboard_filter msg vk m = (Ok true, m))
  ∧ (∀ msg vk k,
       vk_to_name vk = Some k →
       k ∉ _emulating_keys (core m) → k ∉ _restoring_keys (core m) →
       tasks (core m) !! k = None →
       create_keyboard_filter msg vk m = (Ok true, m))
  ∧ (∀ msg mouseData,
       xbutton_name mouseData ∉ _emulating_keys (core m) →
       tasks (core m) !! xbutton_name mouseData = None →
       create_mouse_filter msg mouseData m = (Ok true, m))
  ∧ (∀ k, k ∉ _emulating_keys (core m) → k ∉ _restoring_keys (core m) →
          tasks (core m) !! k = None →
          _keyboard_keydown k m = (Ok tt, m)
          ∧ _keyboard_keyup k m = (Ok tt, m)).
Proof.
  split; [|split; [|split]].
  - intros msg vk Hvk. unfold create_keyboard_filter. rewrite Hvk.
    by destruct (negb _).
  - intros msg vk k Hvk He Hr Ht. unfold create_keyboard_filter. rewrite Hvk.
    destruct (negb _); [done|].
    rewrite run_bind, check_emulating_eq, (bool_decide_eq_false_2 _ He).
    rewrite run_bind, check_restoring_eq, (bool_decide_eq_false_2 _ Hr).
    rewrite run_bind. cbn [get]. by rewrite Ht.
  - intros msg data He Ht. unfold create_mouse_filter.
    destruct (negb _); [done|].
    rewrite run_bind, check_emulating_eq, (bool_decide_eq_false_2 _ He).
    rewrite run_bind. cbn [get]. by rewrite Ht.
  - intros k He Hr Ht. destruct m as [? ? ? ? ? ? ? ? c ? ?].
    unfold _keyboard_keydown, _keyboard_keyup, in_core, is_emulating,
      is_restoring. unfold_m. cbn in *.
    rewrite (bool_decide_eq_false_2 _ He), (bool_decide_eq_false_2 _ Hr).
    cbn. by rewrite Ht.
Qed.







(** X16. The button name depends on the high word of [mouseData] alone:
    with the word [hi] in bits 16 to 31 and anything in the low 16 bits, the
    name is ["x1"] when [hi] is [XBUTTON1] and ["x2"] for every other
    value of [hi]. *)
Theorem xbutton_name_high_word hi lo :
  (0 ≤ lo < 65536)%Z → (0 ≤ hi < 65536)%Z →
  xbutton_name (hi * 65536 + lo) = if Z.eqb hi XBUTTON1 then "x1" else "x2".
Proof.
  intros Hlo Hhi. unfold xbutton_name.
  assert (E : Z.land (Z.shiftr (hi * 65536 + lo) 16) 65535 = hi).
  { rewrite Z.shiftr_div_pow2 by lia.
    change (2 ^ 16)%Z with 65536%Z.
    rewrite Z.div_add_l, (Z.div_small lo) by lia.
    rewrite Z.add_0_r. change 65535%Z with (Z.ones 16).
    rewrite Z.land_ones by lia. apply Z.mod_small.
    change (2 ^ 16)%Z with 65536%Z. lia. }
  by rewrite E.
Qed.

End FilterProps.

(** ** The capture future of a task *)

Section FutureProps.
Context {KM : KeyMapper}.

#[local] Arguments armed : simpl never.
#[local] Arguments resolved : simpl never.

Lemma futures_armed k t c : futures (armed k t c) = futures c.
Proof. unfold armed. by destruct (_ && _). Qed.

Lemma queue_armed k t c :
  queue_in (armed k t c)
  = queue_in c ++ [begin_item (clock (world c) (time_reads c))].
Proof. unfold armed. by destruct (_ && _). Qed.

Lemma world_armed k t c : world (armed k t c) = world c.
Proof. unfold armed. by destruct (_ && _). Qed.

Lemma time_reads_armed k t c : time_reads (armed k t c) = S (time_reads c).
Proof. unfold armed. by destruct (_ && _). Qed.

(** The store and task after a [launch] that returned. *)
Lemma launch_ok k c t :
  tasks c !! k = Some t → recorder_ok (world c) = true →
  ∃ c1 t1, launch k c = (Ok tt, c1)
           ∧ tasks c1 !! k = Some t1
           ∧ task t1 = Some (length (futures c))
           ∧ is_recording t1 = true
           ∧ shortcut t1 = shortcut t
           ∧ futures c1 = futures c ++ [Running]
           ∧ queue_in c1
             = queue_in c ++ [begin_item (clock (world c) (time_reads c))]
           ∧ world c1 = world c
           ∧ time_reads c1 = S (time_reads c).
Proof.
  intros Hk Hok. rewrite (launch_eq k c t Hk), Hok.
  destruct (tasks_armed k t c Hk) as (ta & Hta & Hsc & _ & Hrec & _).
  eexists _, _. split; [reflexivity|]. cbn.
  rewrite lookup_alter_eq, Hta, futures_armed, queue_armed, world_armed,
    time_reads_armed. cbn.
  split; [reflexivity|]. cbn. by rewrite Hrec, Hsc.
Qed.

(** X15. The capture future through an activation.  A [launch] that
    returns appends one running future to the table and stores its index
    as the handle.  A following [cancel] marks exactly that future as
    cancelled and drops the handle; a following [finish] neither cancels
    the future nor drops the handle -- the task is then idle with the handle
    of the finished capture still in place.  Futures that were in the table
    before are untouched throughout. *)
Theorem capture_future_lifecycle k c t :
  tasks c !! k = Some t →
  recorder_ok (world c) = true →
  let n := length (futures c) in
  (futures (launch k c).2 = futures c ++ [Running]
   ∧ ∃ t1, tasks (launch k c).2 !! k = Some t1 ∧ task t1 = Some n)
  ∧ (((launch k;; cancel k) c).1 = Ok tt
     ∧ futures ((launch k;; cancel k) c).2 = futures c ++ [Cancelled]
     ∧ ∃ t2, tasks ((launch k;; cancel k) c).2 !! k = Some t2
             ∧ task t2 = None ∧ is_recording t2 = false)
  ∧ (((launch k;; finish k) c).1 = Ok tt
     ∧ futures ((launch k;; finish k) c).2 = futures c ++ [Running]
     ∧ ∃ t3, tasks ((launch k;; finish k) c).2 !! k = Some t3
             ∧ task t3 = Some n ∧ is_recording t3 = false).
Proof.
  intros Hk Hok n.
  destruct (launch_ok k c t Hk Hok)
    as (c1 & t1 & El & Ht1 & Hh1 & Hr1 & Hs1 & Hf1 & _).
  rewrite !run_bind, El. cbn [fst snd]. split; [by eauto|]. split.
  - rewrite (cancel_eq k c1 t1 Ht1), Hh1. cbn [fst snd].
    rewrite futures_resolved, tasks_resolved. cbn.
    rewrite !lookup_alter_eq, Ht1, Hf1. cbn.
    split; [done|]. split; [|by eauto].
    rewrite insert_app_r_alt by done.
    by replace (length (futures c) - length (futures c))%nat with 0%nat by lia.
  - rewrite (finish_eq k c1 t1 Ht1). cbn [fst snd].
    rewrite futures_resolved, tasks_resolved. cbn.
    rewrite !lookup_alter_eq, Ht1, Hf1. cbn.
    split; [done|]. split; [done|]. eexists. split; [reflexivity|].
    cbn. by rewrite Hh1.
Qed.

(** X17. [launch] does not look at [is_recording].  Launched twice in a
    row on a task, it puts two [begin] items on the queue and starts two
    captures; the handle is that of the second, so the first future stays
    running with no task holding it. *)
Theorem launch_is_unguarded k c t :
  tasks c !! k = Some t →
  recorder_ok (world c) = true →
  let r := (launch k;; launch k) c in
  let n := length (futures c) in
  r.1 = Ok tt
  ∧ queue_in r.2 =
      queue_in c ++ [begin_item (clock (world c) (time_reads c));
                     begin_item (clock (world c) (S (time_reads c)))]
  ∧ futures r.2 = futures c ++ [Running; Running]
  ∧ ∃ t', tasks r.2 !! k = Some t' ∧ task t' = Some (S n)
          ∧ is_recording t' = true.
Proof.
  intros Hk Hok. cbn zeta.
  destruct (launch_ok k c t Hk Hok)
    as (c1 & t1 & El & Ht1 & _ & _ & _ & Hf1 & Hq1 & Hw1 & Hr1).
  rewrite run_bind, El.
  destruct (launch_ok k c1 t1 Ht1)
    as (c2 & t2 & El2 & Ht2 & Hh2 & Hr2 & _ & Hf2 & Hq2 & _); [by rewrite Hw1|].
  rewrite El2. cbn [fst snd]. split; [done|].
  rewrite Hq2, Hq1, Hf2, Hf1, Hw1, Hr1, <- !app_assoc. cbn.
  repeat split. exists t2. rewrite Ht2, Hh2, Hf1, length_app. cbn.
  repeat split; [|done]. f_equal. lia.
Qed.

End FutureProps.

(** ** The further properties on the concrete configuration *)

Ltac by_eval_not := apply (bool_decide_unpack _); vm_compute; exact I.

Lemma emulate_then_own_events_witness :
  "f12" ≠ "caps_lock"
  ∧ ("f12" ∈ _emulating_keys
       (core (_keyboard_keyup "caps_lock"
                (with_core (emulate_key "caps_lock"
                              (core (sample_manager "Windows" true))).2
                   (sample_manager "Windows" true))).2)
     ↔ "f12" ∈ _emulating_keys (core (sample_manager "Windows" true))).
Proof.
  assert (H : "f12" ≠ "caps_lock") by discriminate.
  split; [exact H|].
  destruct (emulate_then_own_events (sample_manager "Windows" true)
              "caps_lock") as (_ & _ & _ & P & _).
  exact (P "f12" H).
Defined.

Lemma init_tasks_lookup_witness :
  _init_tasks 30 [sc_x1; sc_caps; sc_chord] !! "x1"
    = Some (new_task sc_x1 30)
  ∧ key (shortcut (new_task sc_x1 30)) = "x1"
  ∧ is_recording (new_task sc_x1 30) = false.
Proof.
  assert (H : _init_tasks 30 [sc_x1; sc_caps; sc_chord] !! "x1"
              = Some (new_task sc_x1 30)) by (vm_compute; reflexivity).
  split; [exact H|].
  destruct (init_tasks_lookup 30 [sc_x1; sc_caps; sc_chord] "x1") as [_ P].
  destruct (P _ H) as (P1 & _ & _ & P4 & _). by split.
Defined.

Lemma task_methods_are_isolated_witness :
  "caps_lock" ≠ "x1"
  ∧ tasks (launch "x1" (core (sample_manager "Windows" true))).2
      !! "caps_lock"
    = tasks (core (sample_manager "Windows" true)) !! "caps_lock".
Proof.
  assert (H : "caps_lock" ≠ "x1") by discriminate.
  split; [exact H|].
  destruct (task_methods_are_isolated "x1") as (P & _).
  exact (proj1 (P (core (sample_manager "Windows" true))) "caps_lock" H).
Defined.

Lemma task_inv_preserved_witness :
  let c := core (sample_manager "Windows" true) in
  let t := task_at "x1" c in
  tasks c !! "x1" = Some t ∧ task_inv c t
  ∧ (launch "x1" c).1 = Ok tt
  ∧ ∃ t', tasks (launch "x1" c).2 !! "x1" = Some t'
          ∧ task_inv (launch "x1" c).2 t'.
Proof.
  intros c t.
  assert (H1 : tasks c !! "x1" = Some t) by (vm_compute; reflexivity).
  assert (H2 : task_inv c t).
  { split; [intros Hr; vm_compute in Hr; discriminate Hr|].
    intros _. vm_compute. reflexivity. }
  assert (H3 : (launch "x1" c).1 = Ok tt) by (vm_compute; reflexivity).
  repeat (split; [assumption|]).
  apply (task_inv_preserved "x1" c t H1 H2 (launch "x1")); [|exact H3].
  apply list_elem_of_here.
Defined.

Lemma release_without_recording_witness :
  let c := core click_manager in
  let t := task_at "f12" c in
  tasks c !! "f12" = Some t ∧ hold_mode (shortcut t) = false
  ∧ (_handle_mouse_keyup "f12" c).1 = Ok tt
  ∧ queue_in (_handle_mouse_keyup "f12" c).2 = queue_in c.
Proof.
  intros c t.
  assert (H1 : tasks c !! "f12" = Some t) by (vm_compute; reflexivity).
  assert (H2 : hold_mode (shortcut t) = false) by (vm_compute; reflexivity).
  repeat (split; [assumption|]).
  destruct (release_without_recording "f12" c t H1) as [P _].
  destruct (P H2) as (P1 & _ & P3 & _). by split.
Defined.

Lemma unregistered_events_pass_through_witness :
  let m := sample_manager "Windows" true in
  vk_to_name 123 = Some "f12"
  ∧ tasks (core m) !! "f12" = None
  ∧ create_keyboard_filter 256 123 m = (Ok true, m).
Proof.
  intros m.
  assert (H1 : vk_to_name 123 = Some "f12") by reflexivity.
  assert (H2 : tasks (core m) !! "f12" = None) by (vm_compute; reflexivity).
  repeat (split; [assumption|]).
  destruct (unregistered_events_pass_through m) as (_ & P & _).
  apply (P 256 123 "f12" H1); [by_eval_not|by_eval_not|exact H2].
Defined.



Lemma xbutton_name_high_word_witness :
  (0 ≤ 5 < 65536)%Z ∧ (0 ≤ 2 < 65536)%Z
  ∧ xbutton_name (2 * 65536 + 5) = if Z.eqb 2 XBUTTON1 then "x1" else "x2".
Proof.
  assert (H1 : (0 ≤ 5 < 65536)%Z) by lia.
  assert (H2 : (0 ≤ 2 < 65536)%Z) by lia.
  repeat (split; [assumption|]).
  exact (xbutton_name_high_word 2 5 H1 H2).
Defined.

Lemma stop_returns_iff_witness :
  let m := with_core (launched "Windows" true "x1")
             (sample_manager "Windows" true) in
  (stop m).1 = Ok tt
  ∧ _pool_shutdown (core (stop m).2) = true
  ∧ recording_have_handles (core m).
Proof.
  intros m.
  assert (H : (stop m).1 = Ok tt) by (vm_compute; reflexivity).
  split; [exact H|].
  destruct (stop_returns_iff m) as (P1 & P2 & _).
  destruct (P2 H) as (_ & _ & Q & _). split; [exact Q|]. by apply P1.
Defined.




Lemma capture_future_lifecycle_witness :
  let c := core (sample_manager "Windows" true) in
  tasks c !! "x1" = Some (task_at "x1" c)
  ∧ recorder_ok (world c) = true
  ∧ futures ((launch "x1";; cancel "x1") c).2 = futures c ++ [Cancelled]
  ∧ futures ((launch "x1";; finish "x1") c).2 = futures c ++ [Running].
Proof.
  intros c.
  assert (H1 : tasks c !! "x1" = Some (task_at "x1" c))
    by (vm_compute; reflexivity).
  assert (H2 : recorder_ok (world c) = true) by reflexivity.
  repeat (split; [assumption|]).
  destruct (capture_future_lifecycle "x1" c _ H1 H2)
    as (_ & (_ & P & _) & (_ & Q & _)).
  by split.
Defined.

Lemma launch_is_unguarded_witness :
  let c := core (sample_manager "Windows" true) in
  tasks c !! "x1" = Some (task_at "x1" c)
  ∧ recorder_ok (world c) = true
  ∧ futures ((launch "x1";; launch "x1") c).2
    = futures c ++ [Running; Running].
Proof.
  intros c.
  assert (H1 : tasks c !! "x1" = Some (task_at "x1" c))
    by (vm_compute; reflexivity).
  assert (H2 : recorder_ok (world c) = true) by reflexivity.
  repeat (split; [assumption|]).
  destruct (launch_is_unguarded "x1" c _ H1 H2) as (_ & _ & P & _).
  exact P.
Defined.

(** ** The global hotkey manager *)

Section GlobalHotkeyProps.
Import GlobalHotkey.
Context {SL : StrLower}.

(** *** Dicts *)

Lemma dict_get_set_eq {V} k (v : V) d : dict_get k (dict_set k v d) = Some v.
Proof.
  induction d as [|[k' v'] d IH]; cbn; [by rewrite String.eqb_refl|].
  destruct (String.eqb_spec k k'); cbn; [by rewrite String.eqb_refl|].
  by destruct (String.eqb_spec k k').
Qed.

Lemma dict_get_set_ne {V} j k (v : V) d :
  j ≠ k → dict_get j (dict_set k v d) = dict_get j d.
Proof.
  intros Hne. induction d as [|[k' v'] d IH]; cbn.
  - by destruct (String.eqb_spec j k).
  - destruct (String.eqb_spec k k') as [<-|]; cbn.
    + by destruct (String.eqb_spec j k).
    + by rewrite IH.
Qed.

Lemma dict_get_del_eq {V} k (d : list (string * V)) :
  dict_get k (dict_del k d) = None.
Proof.
  unfold dict_del. induction d as [|[k' v'] d IH]; [done|].
  cbn [List.filter fst].
  destruct (String.eqb_spec k k'); cbn [negb dict_get]; [done|].
  by destruct (String.eqb_spec k k').
Qed.

Lemma dict_get_del_ne {V} j k (d : list (string * V)) :
  j ≠ k → dict_get j (dict_del k d) = dict_get j d.
Proof.
  intros Hne. unfold dict_del. induction d as [|[k' v'] d IH]; [done|].
  cbn [List.filter fst].
  destruct (String.eqb_spec k k') as [<-|]; cbn [negb dict_get].
  - by destruct (String.eqb_spec j k).
  - by rewrite IH.
Qed.

Lemma dict_get_Some_in {V} k (v : V) d : dict_get k d = Some v → (k, v) ∈ d.
Proof.
  induction d as [|[k' v'] d IH]; cbn; [done|].
  destruct (String.eqb_spec k k') as [<-|].
  - intros [= ->]. by left.
  - intros H. right. by apply IH.
Qed.

Lemma dict_get_None {V} k (d : list (string * V)) :
  dict_get k d = None ↔ k ∉ d.*1.
Proof.
  induction d as [|[k' v'] d IH]; cbn.
  - split; [intros _ H; by apply elem_of_nil in H|done].
  - rewrite not_elem_of_cons.
    destruct (String.eqb_spec k k'); [|tauto]. split; [done|tauto].
Qed.

Lemma dict_get_in_NoDup {V} k (v : V) d :
  NoDup d.*1 → (k, v) ∈ d → dict_get k d = Some v.
Proof.
  induction d as [|[k' v'] d IH]; cbn; intros Hnd Hin.
  - by apply elem_of_nil in Hin.
  - apply NoDup_cons in Hnd as [Hk' Hnd].
    apply elem_of_cons in Hin as [[= -> ->]|Hin].
    + by rewrite String.eqb_refl.
    + destruct (String.eqb_spec k k') as [->|]; [|by apply IH].
      exfalso. apply Hk'. apply list_elem_of_fmap. by exists (k', v).
Qed.

Lemma dict_set_keys {V} j k (v : V) d :
  j ∈ (dict_set k v d).*1 ↔ j = k ∨ j ∈ d.*1.
Proof.
  induction d as [|[k' v'] d IH]; cbn.
  - rewrite list_elem_of_singleton. split; [by left|].
    intros [?|H]; [done|by apply elem_of_nil in H].
  - destruct (String.eqb_spec k k') as [<-|]; cbn;
      rewrite !elem_of_cons, ?IH; tauto.
Qed.

Lemma dict_set_NoDup {V} k (v : V) d :
  NoDup d.*1 → NoDup (dict_set k v d).*1.
Proof.
  induction d as [|[k' v'] d IH]; cbn; intros Hnd.
  - apply NoDup_singleton.
  - apply NoDup_cons in Hnd as [Hk' Hnd].
    destruct (String.eqb_spec k k') as [<-|]; cbn; apply NoDup_cons.
    + done.
    + split; [|by apply IH]. rewrite dict_set_keys. intros [?|?]; done.
Qed.

Lemma dict_del_NoDup {V} k (d : list (string * V)) :
  NoDup d.*1 → NoDup (dict_del k d).*1.
Proof.
  unfold dict_del. induction d as [|[k' v'] d IH]; intros Hnd; [done|].
  cbn [fmap list_fmap fst] in Hnd. apply NoDup_cons in Hnd as [Hk' Hnd].
  cbn [List.filter fst].
  destruct (negb (String.eqb k k')); [|by apply IH].
  cbn [fmap list_fmap fst]. apply NoDup_cons. split; [|by apply IH].
  intros Hin. apply Hk'. apply list_elem_of_fmap in Hin as ([j x] & -> & Hin).
  apply list_elem_of_fmap. exists (j, x). split; [done|].
  apply list_elem_of_In, filter_In in Hin as [Hin _].
  by apply list_elem_of_In.
Qed.

(** *** One iteration of [_start_listener] *)

Lemma start_one_static s kc :
  _hotkeys (start_one s kc) = _hotkeys s
  ∧ _running (start_one s kc) = _running s
  ∧ add_hotkey_ok (keyboard_lib (start_one s kc))
    = add_hotkey_ok (keyboard_lib s)
  ∧ ∀ e, e ∈ lib_hotkeys (keyboard_lib s) →
         e ∈ lib_hotkeys (keyboard_lib (start_one s kc)).
Proof.
  unfold start_one, add_hotkey.
  destruct (String.eqb _ ""); [done|].
  destruct (add_hotkey_ok _ _); cbn; [|done].
  repeat split. intros e He. apply elem_of_app. by left.
Qed.

Lemma start_one_other s k cb j :
  j ≠ k →
  dict_get j (_handles (start_one s (k, cb))) = dict_get j (_handles s).
Proof.
  intros Hne. unfold start_one, add_hotkey. cbn.
  destruct (String.eqb _ ""); [done|].
  destruct (add_hotkey_ok _ _); cbn; [|done]. by apply dict_get_set_ne.
Qed.

Lemma start_one_accepted s k cb :
  accepted (keyboard_lib s) k →
  ∃ h, dict_get k (_handles (start_one s (k, cb))) = Some h
       ∧ (h, (_normalize_hotkey k, cb))
           ∈ lib_hotkeys (keyboard_lib (start_one s (k, cb))).
Proof.
  intros [Hn Hok]. unfold start_one, add_hotkey. cbn.
  destruct (String.eqb_spec (_normalize_hotkey k) ""); [done|].
  rewrite Hok. cbn. eexists. split; [apply dict_get_set_eq|].
  apply elem_of_app. right. by apply list_elem_of_singleton.
Qed.

Lemma start_one_sound s k cb h :
  dict_get k (_handles (start_one s (k, cb))) = Some h →
  dict_get k (_handles s) = Some h
  ∨ (accepted (keyboard_lib s) k
     ∧ (h, (_normalize_hotkey k, cb))
         ∈ lib_hotkeys (keyboard_lib (start_one s (k, cb)))).
Proof.
  unfold start_one, add_hotkey, accepted. cbn.
  destruct (String.eqb_spec (_normalize_hotkey k) ""); [by left|].
  destruct (add_hotkey_ok _ _) eqn:Hok; cbn; [|by left].
  rewrite dict_get_set_eq. intros [= <-]. right. split; [done|].
  apply elem_of_app. right. by apply list_elem_of_singleton.
Qed.

(** *** The loop of [_start_listener] *)

Lemma start_loop_static hs :
  ∀ s,
    _hotkeys (foldl start_one s hs) = _hotkeys s
    ∧ _running (foldl start_one s hs) = _running s
    ∧ add_hotkey_ok (keyboard_lib (foldl start_one s hs))
      = add_hotkey_ok (keyboard_lib s)
    ∧ ∀ e, e ∈ lib_hotkeys (keyboard_lib s) →
           e ∈ lib_hotkeys (keyboard_lib (foldl start_one s hs)).
Proof.
  induction hs as [|kc hs IH]; intros s; cbn [foldl]; [done|].
  destruct (IH (start_one s kc)) as (H1 & H2 & H3 & H4).
  destruct (start_one_static s kc) as (G1 & G2 & G3 & G4).
  rewrite H1, H2, H3, G1, G2, G3. repeat split. intros e He. by apply H4, G4.
Qed.

Lemma start_loop_other hs :
  ∀ s j, j ∉ hs.*1 →
         dict_get j (_handles (foldl start_one s hs)) = dict_get j (_handles s).
Proof.
  induction hs as [|[k cb] hs IH]; intros s j Hj; cbn [foldl]; [done|].
  cbn in Hj. apply not_elem_of_cons in Hj as [Hne Hj].
  rewrite IH by done. by apply start_one_other.
Qed.

(** Every hotkey the library takes has a handle afterwards, registered
    under its normalized name with its callback. *)
Lemma start_loop_complete hs :
  ∀ s k cb,
    NoDup hs.*1 → (k, cb) ∈ hs → accepted (keyboard_lib s) k →
    ∃ h, dict_get k (_handles (foldl start_one s hs)) = Some h
         ∧ (h, (_normalize_hotkey k, cb))
             ∈ lib_hotkeys (keyboard_lib (foldl start_one s hs)).
Proof.
  induction hs as [|[k' cb'] hs IH]; intros s k cb Hnd Hin Hacc.
  - by apply elem_of_nil in Hin.
  - cbn in Hnd. apply NoDup_cons in Hnd as [Hk' Hnd]. cbn [foldl].
    apply elem_of_cons in Hin as [[= -> ->]|Hin].
    + destruct (start_one_accepted s k' cb' Hacc) as (h & Hh & Hl).
      exists h. rewrite start_loop_other by done. split; [done|].
      by apply start_loop_static.
    + apply IH; [done..|]. unfold accepted in *.
      by destruct (start_one_static s (k', cb')) as (_ & _ & -> & _).
Qed.

(** Every handle afterwards is an old one or belongs to a hotkey of the
    loop that the library took. *)
Lemma start_loop_sound hs :
  ∀ s k h,
    NoDup hs.*1 →
    dict_get k (_handles (foldl start_one s hs)) = Some h →
    dict_get k (_handles s) = Some h
    ∨ ∃ cb, (k, cb) ∈ hs ∧ accepted (keyboard_lib s) k
            ∧ (h, (_normalize_hotkey k, cb))
                ∈ lib_hotkeys (keyboard_lib (foldl start_one s hs)).
Proof.
  induction hs as [|[k' cb'] hs IH]; intros s k h Hnd Hh; [by left|].
  cbn in Hnd. apply NoDup_cons in Hnd as [Hk' Hnd]. cbn [foldl] in *.
  destruct (start_one_static s (k', cb')) as (_ & _ & Hok & _).
  destruct (IH _ _ _ Hnd Hh) as [Hold|(cb & Hin & Hacc & Hl)].
  - destruct (decide (k = k')) as [->|Hne].
    + destruct (start_one_sound s k' cb' h Hold) as [?|[Hacc Hl]];
        [by left|].
      right. exists cb'. split; [by left|]. split; [done|].
      by apply start_loop_static.
    + rewrite start_one_other in Hold by done. by left.
  - right. exists cb. split; [by right|]. split; [|done].
    unfold accepted in *. by rewrite <- Hok.
Qed.

(** *** [_start_listener] on a manager without handles *)

Lemma start_listener_static s :
  _hotkeys (_start_listener s) = _hotkeys s
  ∧ _running (_start_listener s) = _running s
  ∧ add_hotkey_ok (keyboard_lib (_start_listener s))
    = add_hotkey_ok (keyboard_lib s).
Proof.
  unfold _start_listener. destruct (_hotkeys s) as [|kc hs] eqn:E; [done|].
  destruct (start_loop_static (kc :: hs) s) as (H1 & H2 & H3 & _).
  by rewrite H1, H2, H3.
Qed.

Lemma start_listener_fold s :
  _start_listener s = foldl start_one s (_hotkeys s).
Proof. unfold _start_listener. by destruct (_hotkeys s). Qed.

Lemma accepted_ext l l' k :
  add_hotkey_ok l' = add_hotkey_ok l → accepted l k → accepted l' k.
Proof. unfold accepted. by intros ->. Qed.

Lemma start_listener_inv s :
  NoDup (_hotkeys s).*1 → _handles s = [] → _running s = true →
  listening_inv (_start_listener s).
Proof.
  intros Hnd Hh Hr.
  destruct (start_listener_static s) as (H1 & H2 & H3).
  unfold listening_inv. rewrite H1, H2, Hr.
  split; [done|]. split; [done|]. split.
  - intros k h Hk. rewrite start_listener_fold in Hk |- *.
    apply start_loop_sound in Hk as [Hk|(cb & Hin & Hacc & Hl)]; [| |done].
    + by rewrite Hh in Hk.
    + exists cb. split; [by apply dict_get_in_NoDup|]. split; [|done].
      eapply accepted_ext; [|done]. by rewrite <- start_listener_fold.
  - intros _ k cb Hk Hacc. rewrite start_listener_fold.
    apply dict_get_Some_in in Hk.
    destruct (start_loop_complete (_hotkeys s) s k cb Hnd Hk) as (h & -> & _);
      [|done].
    eapply accepted_ext; [|done]. by rewrite H3.
Qed.

(** *** Releasing the handles *)

Lemma filter_filter {A} (p q : A → bool) l :
  List.filter p (List.filter q l) = List.filter (λ x, q x && p x) l.
Proof.
  induction l as [|x l IH]; [done|]. cbn [List.filter].
  destruct (q x); cbn [List.filter andb]; [|done].
  by destruct (p x); rewrite IH.
Qed.

Lemma remove_loop hs :
  ∀ l,
    lib_hotkeys (foldl (λ l (kh : string * Handle), remove_hotkey kh.2 l) l hs)
    = List.filter
        (λ e, negb (existsb (λ kh : string * Handle, Nat.eqb kh.2 e.1) hs))
        (lib_hotkeys l)
    ∧ next_handle
        (foldl (λ l (kh : string * Handle), remove_hotkey kh.2 l) l hs)
      = next_handle l
    ∧ add_hotkey_ok
        (foldl (λ l (kh : string * Handle), remove_hotkey kh.2 l) l hs)
      = add_hotkey_ok l.
Proof.
  induction hs as [|kh hs IH]; intros l; cbn [foldl existsb negb].
  - split; [|done]. induction (lib_hotkeys l) as [|e es IHe]; [done|].
    cbn [List.filter]. by rewrite <- IHe.
  - destruct (IH (remove_hotkey kh.2 l)) as (-> & -> & ->).
    split; [|done]. cbn [remove_hotkey lib_hotkeys]. rewrite filter_filter.
    apply List.filter_ext. intros e. by rewrite negb_orb.
Qed.

Lemma remove_handles_inv s :
  NoDup (_hotkeys s).*1 → _running s = false →
  listening_inv (remove_handles s).
Proof.
  intros Hnd Hr. unfold listening_inv, remove_handles. cbn.
  rewrite Hr. by repeat split.
Qed.

Lemma restart_listener_inv s :
  NoDup (_hotkeys s).*1 → _running s = true →
  listening_inv (_restart_listener s).
Proof.
  intros Hnd Hr. unfold _restart_listener.
  change (_running (remove_handles s)) with (_running s).
  change (_hotkeys (remove_handles s)) with (_hotkeys s).
  rewrite Hr. destruct (_hotkeys s) as [|kc hs] eqn:E; cbn [andb].
  - unfold listening_inv, remove_handles. cbn. rewrite E, Hr.
    split; [apply NoDup_nil_2|]. by repeat split.
  - apply start_listener_inv; cbn; by rewrite ?E.
Qed.

(** *** The methods keep the manager and the library in step *)

Lemma restart_listener_static s :
  _hotkeys (_restart_listener s) = _hotkeys s
  ∧ _running (_restart_listener s) = _running s
  ∧ add_hotkey_ok (keyboard_lib (_restart_listener s))
    = add_hotkey_ok (keyboard_lib s).
Proof.
  unfold _restart_listener.
  assert (add_hotkey_ok (keyboard_lib (remove_handles s))
          = add_hotkey_ok (keyboard_lib s)) as Hok
    by apply (remove_loop (_handles s) (keyboard_lib s)).
  destruct (_running (remove_handles s) && _) ; [|done].
  destruct (start_listener_static (remove_handles s)) as (-> & -> & ->).
  done.
Qed.

Lemma new_manager_inv l : listening_inv (new_manager l).
Proof.
  unfold listening_inv, new_manager. cbn.
  split; [apply NoDup_nil_2|]. by repeat split.
Qed.

Lemma register_inv s k cb :
  listening_inv s → listening_inv (register k cb s).
Proof.
  intros (Hnd & Hoff & Hsound & Hcomplete).
  unfold register. cbn [_running]. destruct (_running s) eqn:Hr.
  - by apply restart_listener_inv; cbn; [apply dict_set_NoDup|].
  - unfold listening_inv. cbn. rewrite (Hoff eq_refl).
    split; [by apply dict_set_NoDup|]. by repeat split.
Qed.

Lemma unregister_inv s k :
  listening_inv s → listening_inv (unregister k s).2.
Proof.
  intros Hinv. pose proof Hinv as (Hnd & Hoff & Hsound & Hcomplete).
  unfold unregister. destruct (dict_get k (_hotkeys s)); [|exact Hinv].
  cbn [snd _running]. destruct (_running s) eqn:Hr.
  - by apply restart_listener_inv; cbn; [apply dict_del_NoDup|].
  - unfold listening_inv. cbn. rewrite (Hoff eq_refl).
    split; [by apply dict_del_NoDup|]. by repeat split.
Qed.

Lemma start_inv s : listening_inv s → listening_inv (start s).
Proof.
  intros Hinv. pose proof Hinv as (Hnd & Hoff & Hsound & Hcomplete).
  unfold start. destruct (_running s) eqn:Hr; [exact Hinv|].
  destruct (_hotkeys s) as [|kc hs] eqn:E; [exact Hinv|].
  apply start_listener_inv; [exact Hnd|cbn; by apply Hoff|done].
Qed.

Lemma stop_inv s : listening_inv s → listening_inv (stop s).
Proof. intros (Hnd & _). by apply remove_handles_inv. Qed.

(** Under the invariant a handle and the library entry behind it carry the
    callback that is registered now. *)
Lemma active_hotkey s k cb :
  listening_inv s → _running s = true →
  dict_get k (_hotkeys s) = Some cb → accepted (keyboard_lib s) k →
  ∃ h, dict_get k (_handles s) = Some h
       ∧ (h, (_normalize_hotkey k, cb)) ∈ lib_hotkeys (keyboard_lib s).
Proof.
  intros (_ & _ & Hsound & Hcomplete) Hr Hk Hacc.
  destruct (Hcomplete Hr k cb Hk Hacc) as [h Hh]. exists h. split; [done|].
  destruct (Hsound k h Hh) as (cb' & Hk' & _ & Hl). congruence.
Qed.

Lemma inactive_hotkey s k :
  listening_inv s → ¬ accepted (keyboard_lib s) k →
  dict_get k (_handles s) = None.
Proof.
  intros (_ & _ & Hsound & _) Hacc.
  destruct (dict_get k (_handles s)) as [h|] eqn:Hh; [|done].
  by destruct (Hsound k h Hh) as (_ & _ & ? & _).
Qed.

(** X19. Whatever is registered, unregistered, started or stopped, the
    manager and the keyboard library stay in step: a stopped manager holds
    no handle; every handle belongs to a registered hotkey whose normalized
    name is not empty and was taken by the library, and the library has it
    under that name with the registered callback; a running manager has a
    handle for every registered hotkey the library takes. *)
Theorem listening_inv_preserved s k cb :
  listening_inv s →
  listening_inv (register k cb s)
  ∧ listening_inv (unregister k s).2
  ∧ listening_inv (start s)
  ∧ listening_inv (stop s).
Proof.
  intros Hinv. split; [|split; [|split]].
  - by apply register_inv.
  - by apply unregister_inv.
  - by apply start_inv.
  - by apply stop_inv.
Qed.

(** X20. [register] stores the callback under the key and leaves the other
    hotkeys alone.  On a running manager it takes effect at once: when the
    library takes the hotkey, the manager holds a handle for it and the
    library has the normalized name with the new callback; when it does
    not, the hotkey stays registered without a handle.  On a stopped
    manager nothing reaches the library. *)
Theorem register_takes_effect s k cb :
  listening_inv s →
  dict_get k (_hotkeys (register k cb s)) = Some cb
  ∧ (∀ j, j ≠ k →
       dict_get j (_hotkeys (register k cb s)) = dict_get j (_hotkeys s))
  ∧ _running (register k cb s) = _running s
  ∧ (_running s = true → accepted (keyboard_lib s) k →
     ∃ h, dict_get k (_handles (register k cb s)) = Some h
          ∧ (h, (_normalize_hotkey k, cb))
              ∈ lib_hotkeys (keyboard_lib (register k cb s)))
  ∧ (_running s = true → ¬ accepted (keyboard_lib s) k →
     dict_get k (_handles (register k cb s)) = None)
  ∧ (_running s = false →
     _handles (register k cb s) = []
     ∧ keyboard_lib (register k cb s) = keyboard_lib s).
Proof.
  intros Hinv. pose proof (register_inv s k cb Hinv) as Hinv'.
  assert (_hotkeys (register k cb s) = dict_set k cb (_hotkeys s)
          ∧ _running (register k cb s) = _running s
          ∧ add_hotkey_ok (keyboard_lib (register k cb s))
            = add_hotkey_ok (keyboard_lib s)) as (Hh & Hr & Hok).
  { unfold register. cbn [_running]. destruct (_running s); [|done].
    apply (restart_listener_static
             {| _hotkeys := dict_set k cb (_hotkeys s);
                _handles := _handles s; _running := true;
                keyboard_lib := keyboard_lib s |}). }
  rewrite Hh, Hr.
  split; [apply dict_get_set_eq|].
  split; [intros j Hne; by apply dict_get_set_ne|].
  split; [done|]. split; [|split].
  - intros Hrun Hacc. apply active_hotkey; [done|congruence| |].
    + rewrite Hh. apply dict_get_set_eq.
    + by apply (accepted_ext (keyboard_lib s)).
  - intros Hrun Hacc. apply inactive_hotkey; [done|].
    intros Hacc'. apply Hacc. by apply (accepted_ext _ _ _ (eq_sym Hok)).
  - intros Hrun. destruct Hinv as (_ & Hoff & _).
    unfold register. cbn [_running]. rewrite Hrun. cbn. by split; [apply Hoff|].
Qed.

(** X21. [unregister] answers whether the key was registered.  A key that
    was not registered changes nothing.  Afterwards the key is neither
    registered nor does it hold a handle, the other hotkeys are registered
    as before, and on a running manager each of them that the library takes
    is active with its callback. *)
Theorem unregister_outcome s k :
  listening_inv s →
  ((unregister k s).1 = true ↔ is_Some (dict_get k (_hotkeys s)))
  ∧ ((unregister k s).1 = false → (unregister k s).2 = s)
  ∧ dict_get k (_hotkeys (unregister k s).2) = None
  ∧ dict_get k (_handles (unregister k s).2) = None
  ∧ (∀ j, j ≠ k →
       dict_get j (_hotkeys (unregister k s).2) = dict_get j (_hotkeys s))
  ∧ (_running s = true →
     ∀ j cb, j ≠ k → dict_get j (_hotkeys s) = Some cb →
             accepted (keyboard_lib s) j →
             ∃ h, dict_get j (_handles (unregister k s).2) = Some h
                  ∧ (h, (_normalize_hotkey j, cb))
                      ∈ lib_hotkeys (keyboard_lib (unregister k s).2)).
Proof.
  intros Hinv. pose proof (unregister_inv s k Hinv) as Hinv'.
  assert (_hotkeys (unregister k s).2 = dict_del k (_hotkeys s)
          ∧ _running (unregister k s).2 = _running s
          ∧ add_hotkey_ok (keyboard_lib (unregister k s).2)
            = add_hotkey_ok (keyboard_lib s)) as (Hh & Hr & Hok).
  { unfold unregister. destruct (dict_get k (_hotkeys s)) eqn:Hk; cbn [snd].
    - cbn [_running]. destruct (_running s); [|done].
      apply (restart_listener_static
               {| _hotkeys := dict_del k (_hotkeys s);
                  _handles := _handles s; _running := true;
                  keyboard_lib := keyboard_lib s |}).
    - split; [|done]. unfold dict_del. symmetry.
      apply dict_get_None in Hk. induction (_hotkeys s) as [|[k' v] d IH];
        [done|].
      cbn in Hk. apply not_elem_of_cons in Hk as [Hne Hk].
      cbn [List.filter fst]. destruct (String.eqb_spec k k'); [done|].
      cbn [negb]. by rewrite IH. }
  assert (dict_get k (_hotkeys (unregister k s).2) = None) as Hgone
    by (rewrite Hh; apply dict_get_del_eq).
  split; [|split; [|split; [|split; [|split]]]].
  - unfold unregister. destruct (dict_get k (_hotkeys s)); cbn [fst].
    + split; [by eexists|done].
    + split; [done|]. by intros [? ?].
  - unfold unregister. by destruct (dict_get k (_hotkeys s)).
  - done.
  - destruct Hinv' as (_ & _ & Hsound & _).
    destruct (dict_get k (_handles (unregister k s).2)) as [h|] eqn:E; [|done].
    destruct (Hsound k h E) as (cb & Hk & _). congruence.
  - intros j Hne. rewrite Hh. by apply dict_get_del_ne.
  - intros Hrun j cb Hne Hj Hacc. apply active_hotkey; [done|congruence| |].
    + rewrite Hh. by rewrite dict_get_del_ne.
    + by apply (accepted_ext (keyboard_lib s)).
Qed.

(** X22. [stop] leaves the manager stopped and without handles, keeps the
    registered hotkeys for the next [start], and takes out of the library's
    table exactly the entries that carry one of the manager's handles.  A
    second [stop] changes nothing. *)
Theorem stop_releases_handles s :
  _running (stop s) = false
  ∧ _handles (stop s) = []
  ∧ _hotkeys (stop s) = _hotkeys s
  ∧ lib_hotkeys (keyboard_lib (stop s))
    = List.filter (λ e, negb (owned s e)) (lib_hotkeys (keyboard_lib s))
  ∧ stop (stop s) = stop s.
Proof.
  repeat split. unfold stop, remove_handles. cbn.
  apply (remove_loop (_handles s) (keyboard_lib s)).
Qed.

(** X23. [start] on a running manager and [start] without a registered
    hotkey change nothing, so that a second [start] never registers a hotkey
    twice; in every other case the manager is running afterwards. *)
Theorem start_is_idempotent s :
  start (start s) = start s
  ∧ (_running s = true → start s = s)
  ∧ (_hotkeys s = [] → start s = s)
  ∧ (_hotkeys s ≠ [] → _running (start s) = true).
Proof.
  assert (_hotkeys s ≠ [] → _running (start s) = true) as Hrun.
  { intros Hne. unfold start. destruct (_running s) eqn:Hr; [done|].
    destruct (_hotkeys s) as [|kc hs] eqn:E; [done|].
    by destruct (start_listener_static
      {| _hotkeys := kc :: hs; _handles := _handles s; _running := true;
         keyboard_lib := keyboard_lib s |}) as (_ & -> & _). }
  split; [|split; [|split]].
  - destruct (_hotkeys s) as [|kc hs] eqn:E.
    + unfold start at 2. rewrite E. destruct (_running s) eqn:Hr.
      * unfold start. by rewrite ?Hr.
      * unfold start. by rewrite ?Hr, ?E.
    + unfold start at 1. by rewrite Hrun.
  - intros Hr. unfold start. by rewrite Hr.
  - intros E. unfold start. rewrite E. by destruct (_running s).
  - done.
Qed.

(** X24. A manager that is started before any hotkey is registered does not
    run, and a hotkey registered afterwards reaches neither the handles nor
    the library: it is only stored until [start] is called again. *)
Theorem start_without_hotkeys_never_listens s k cb :
  _running s = false → _hotkeys s = [] →
  _running (register k cb (start s)) = false
  ∧ _handles (register k cb (start s)) = _handles s
  ∧ keyboard_lib (register k cb (start s)) = keyboard_lib s
  ∧ _hotkeys (register k cb (start s)) = [(k, cb)].
Proof.
  intros Hr E. unfold start. rewrite Hr, E. unfold register. cbn [_running].
  rewrite Hr. cbn. by rewrite E.
Qed.

(** *** What [start] adds to the library, [stop] takes out again *)

Lemma dict_set_elem {V} j (x : V) k v d :
  (j, x) ∈ dict_set k v d → (j, x) = (k, v) ∨ (j, x) ∈ d.
Proof.
  induction d as [|[k' v'] d IH]; cbn.
  - intros H. apply list_elem_of_singleton in H. by left.
  - destruct (String.eqb k k'); intros H; apply elem_of_cons in H as [H|H].
    + by left.
    + right. by right.
    + right. rewrite H. by left.
    + destruct (IH H) as [?|?]; [by left|]. right. by right.
Qed.

Lemma start_one_lib s k cb :
  ∃ new,
    lib_hotkeys (keyboard_lib (start_one s (k, cb)))
    = lib_hotkeys (keyboard_lib s) ++ new
    ∧ (next_handle (keyboard_lib s)
       ≤ next_handle (keyboard_lib (start_one s (k, cb))))%nat
    ∧ (∀ e, e ∈ new →
         dict_get k (_handles (start_one s (k, cb))) = Some e.1)
    ∧ (∀ j h, (j, h) ∈ _handles (start_one s (k, cb)) →
         (j, h) ∈ _handles s ∨ (next_handle (keyboard_lib s) ≤ h)%nat).
Proof.
  unfold start_one, add_hotkey. cbn [fst snd].
  assert (∃ new : list (Handle * (string * Callback)),
           lib_hotkeys (keyboard_lib s) = lib_hotkeys (keyboard_lib s) ++ new
           ∧ (next_handle (keyboard_lib s) ≤ next_handle (keyboard_lib s))%nat
           ∧ (∀ e, e ∈ new → dict_get k (_handles s) = Some e.1)
           ∧ (∀ j h, (j, h) ∈ _handles s →
                (j, h) ∈ _handles s ∨ (next_handle (keyboard_lib s) ≤ h)%nat))
    as Hsame.
  { exists []. rewrite app_nil_r. split; [done|]. split; [done|].
    split; [intros e He; by apply elem_of_nil in He|]. intros j h. by left. }
  destruct (String.eqb (_normalize_hotkey k) ""); [exact Hsame|].
  destruct (add_hotkey_ok (keyboard_lib s) (_normalize_hotkey k));
    [|exact Hsame].
  cbn [keyboard_lib lib_hotkeys next_handle _handles].
  exists [(next_handle (keyboard_lib s), (_normalize_hotkey k, cb))].
  split; [done|]. split; [lia|]. split.
  - intros e He. apply list_elem_of_singleton in He as ->.
    apply dict_get_set_eq.
  - intros j h Hin.
    apply dict_set_elem in Hin as [[= -> ->]|Hin]; [right; lia|by left].
Qed.

Lemma start_loop_lib hs :
  ∀ s,
    NoDup hs.*1 →
    ∃ new,
      lib_hotkeys (keyboard_lib (foldl start_one s hs))
      = lib_hotkeys (keyboard_lib s) ++ new
      ∧ (next_handle (keyboard_lib s)
         ≤ next_handle (keyboard_lib (foldl start_one s hs)))%nat
      ∧ (∀ e, e ∈ new →
           ∃ j, dict_get j (_handles (foldl start_one s hs)) = Some e.1)
      ∧ (∀ j h, (j, h) ∈ _handles (foldl start_one s hs) →
           (j, h) ∈ _handles s ∨ (next_handle (keyboard_lib s) ≤ h)%nat).
Proof.
  induction hs as [|[k cb] hs IH]; intros s Hnd; cbn [foldl].
  - exists []. rewrite app_nil_r. split; [done|]. split; [done|].
    split; [intros e He; by apply elem_of_nil in He|]. intros j h. by left.
  - cbn in Hnd. apply NoDup_cons in Hnd as [Hk Hnd].
    destruct (IH (start_one s (k, cb)) Hnd) as (new & Hl & Hn & Hnew & Hold).
    destruct (start_one_lib s k cb) as (new1 & Hl1 & Hn1 & Hnew1 & Hold1).
    exists (new1 ++ new). split; [by rewrite Hl, Hl1, <- app_assoc|].
    split; [lia|]. split.
    + intros e He. apply elem_of_app in He as [He|He]; [|by apply Hnew].
      exists k. rewrite start_loop_other by done. by apply Hnew1.
    + intros j h Hj. destruct (Hold j h Hj) as [Hin|Hle]; [|right; lia].
      destruct (Hold1 j h Hin) as [?|?]; [by left|by right].
Qed.

Lemma filter_all {A} (p : A → bool) l :
  (∀ x, x ∈ l → p x = true) → List.filter p l = l.
Proof.
  induction l as [|x l IH]; intros H; [done|]. cbn [List.filter].
  rewrite (H x) by by left. rewrite IH; [done|]. intros y Hy. apply H.
  by right.
Qed.

Lemma filter_none {A} (p : A → bool) l :
  (∀ x, x ∈ l → p x = false) → List.filter p l = [].
Proof.
  induction l as [|x l IH]; intros H; [done|]. cbn [List.filter].
  rewrite (H x) by by left. apply IH. intros y Hy. apply H. by right.
Qed.

Lemma owned_true s e :
  owned s e = true ↔ ∃ j, (j, e.1) ∈ _handles s.
Proof.
  unfold owned. rewrite existsb_exists. split.
  - intros ([j h] & Hin & Heq). apply Nat.eqb_eq in Heq. cbn in Heq.
    subst h. exists j. by apply list_elem_of_In.
  - intros (j & Hin). exists (j, e.1). split; [by apply list_elem_of_In|].
    apply Nat.eqb_refl.
Qed.

(** X25. Starting and then stopping leaves the library's table as it was:
    every hotkey the manager added is taken out again and no hotkey of
    another owner is touched, as long as the library hands out handles it
    does not have in its table. *)
Theorem hotkey_start_then_stop s :
  _running s = false → _handles s = [] → NoDup (_hotkeys s).*1 →
  fresh_handles (keyboard_lib s) →
  lib_hotkeys (keyboard_lib (stop (start s))) = lib_hotkeys (keyboard_lib s)
  ∧ _hotkeys (stop (start s)) = _hotkeys s
  ∧ _handles (stop (start s)) = []
  ∧ _running (stop (start s)) = false.
Proof.
  intros Hr Hh Hnd Hfresh.
  assert (_hotkeys (start s) = _hotkeys s) as Hk.
  { unfold start. rewrite Hr. destruct (_hotkeys s) as [|kc hs] eqn:E; [done|].
    by destruct (start_listener_static
      {| _hotkeys := kc :: hs; _handles := _handles s; _running := true;
         keyboard_lib := keyboard_lib s |}) as (-> & _). }
  split; [|by repeat split].
  assert (lib_hotkeys (keyboard_lib (stop (start s)))
          = List.filter (λ e, negb (owned (start s) e))
              (lib_hotkeys (keyboard_lib (start s)))) as ->
    by apply (remove_loop (_handles (start s)) (keyboard_lib (start s))).
  unfold start. rewrite Hr.
  destruct (_hotkeys s) as [|kc hs] eqn:E.
  - apply filter_all. intros e _. unfold owned. by rewrite Hh.
  - rewrite start_listener_fold. cbn [_hotkeys].
    match goal with
    | |- context [foldl start_one ?s0 (kc :: hs)] =>
        destruct (start_loop_lib (kc :: hs) s0 Hnd)
          as (new & Hl & _ & Hnew & Hold);
        set (s' := foldl start_one s0 (kc :: hs)) in *
    end.
    cbn [keyboard_lib _handles] in Hl, Hold. rewrite Hl, List.filter_app.
    rewrite filter_all, filter_none; [by rewrite app_nil_r| |].
    + intros e He. apply negb_false_iff, owned_true.
      destruct (Hnew e He) as (j & Hj). exists j.
      by apply dict_get_Some_in.
    + intros e He. apply negb_true_iff, not_true_is_false.
      intros (j & Hj)%owned_true.
      destruct (Hold j e.1 Hj) as [Hin|Hle].
      * rewrite Hh in Hin. by apply elem_of_nil in Hin.
      * pose proof (Hfresh e He) as Hlt. cbn in Hle.
        exact (Nat.lt_irrefl _ (Nat.lt_le_trans _ _ _ Hlt Hle)).
Qed.

(** *** Normalized hotkey names *)

Lemma has_char_app c a b :
  has_char c (a +:+ b) = has_char c a || has_char c b.
Proof.
  induction a as [|x a IH]; [done|].
  change (String x a +:+ b) with (String x (a +:+ b)). cbn [has_char].
  by rewrite IH, orb_assoc.
Qed.

(** A replacement brings in no character that is neither in the string nor
    in the replacement text. *)
Lemma replace_keeps_absent c old new s :
  has_char c s = false → has_char c new = false →
  has_char c (str_replace old new s) = false.
Proof.
  intros Hs Hn. unfold str_replace. generalize 0%nat as skip.
  induction s as [|a r IH]; intros skip; [done|]. cbn [has_char] in Hs.
  apply orb_false_iff in Hs as [Ha Hr]. cbn [replace_from].
  destruct skip as [|n]; [|by apply IH].
  destruct (starts_with old (String a r)).
  - rewrite has_char_app, Hn. by apply IH.
  - cbn [has_char]. rewrite Ha. by apply IH.
Qed.

(** Replacing a character by nothing removes it. *)
Lemma replace_removes c s :
  has_char c (str_replace (String c "") "" s) = false.
Proof.
  unfold str_replace. generalize 0%nat as skip.
  induction s as [|a r IH]; intros skip; [done|]. cbn [replace_from].
  destruct skip as [|n]; [|by apply IH].
  cbn [starts_with String.length Nat.sub].
  destruct (Ascii.eqb c a) eqn:E; cbn [andb].
  - change ("" +:+ ?x) with x. apply IH.
  - cbn [has_char]. rewrite E. apply IH.
Qed.

(** X26. A normalized hotkey name holds no blank and no angle bracket,
    whatever the registered key looks like. *)
Theorem normalized_hotkey_is_plain k :
  has_char " " (_normalize_hotkey k) = false
  ∧ has_char "<" (_normalize_hotkey k) = false
  ∧ has_char ">" (_normalize_hotkey k) = false.
Proof.
  unfold _normalize_hotkey. destruct (String.eqb _ ""); [done|].
  set (s0 := str_lower (strip k)).
  assert (has_char "<" (str_replace "<" "" s0) = false) as H1
    by apply replace_removes.
  assert (has_char ">" (str_replace ">" "" (str_replace "<" "" s0)) = false)
    as H2 by apply replace_removes.
  pose proof (replace_keeps_absent "<" ">" "" _ H1 eq_refl) as H1'.
  set (s2 := str_replace ">" "" (str_replace "<" "" s0)) in *.
  clearbody s2. repeat split.
  - apply replace_keeps_absent; [|done]. apply replace_removes.
  - by repeat (apply replace_keeps_absent; [|done]).
  - by repeat (apply replace_keeps_absent; [|done]).
Qed.

End GlobalHotkeyProps.

(** ** The hotkey manager on a concrete library *)

Section GlobalHotkeySamples.
Import GlobalHotkey.

Lemma esc_or_bad k (cb : Callback) :
  dict_get k [("<esc>", 1%nat); ("bad", 2%nat)] = Some cb →
  (k = "<esc>" ∧ cb = 1%nat) ∨ (k = "bad" ∧ cb = 2%nat).
Proof.
  cbn. destruct (String.eqb_spec k "<esc>") as [->|_].
  - intros [= <-]. by left.
  - destruct (String.eqb_spec k "bad") as [->|_]; [|done].
    intros [= <-]. by right.
Qed.

Lemma stopped_hotkeys_inv : listening_inv stopped_hotkeys.
Proof.
  split; [|split; [|split]].
  - apply (bool_decide_unpack _). vm_compute. exact I.
  - reflexivity.
  - intros k h Hk. vm_compute in Hk. discriminate Hk.
  - intros Hr. vm_compute in Hr. discriminate Hr.
Qed.

Lemma running_hotkeys_inv : listening_inv running_hotkeys.
Proof.
  split; [|split; [|split]].
  - apply (bool_decide_unpack _). vm_compute. exact I.
  - intros Hr. vm_compute in Hr. discriminate Hr.
  - intros k h Hk.
    change (_handles running_hotkeys) with [("<esc>", 1%nat)] in Hk.
    cbn in Hk. destruct (String.eqb_spec k "<esc>") as [->|_]; [|done].
    injection Hk as <-. exists 1%nat.
    split; [vm_compute; reflexivity|]. split.
    + split; [intros H; vm_compute in H; discriminate H|].
      vm_compute. reflexivity.
    + change ((1%nat, ("esc", 1%nat))
                ∈ [(0%nat, ("f1", 7%nat)); (1%nat, ("esc", 1%nat))]).
      right. left.
  - intros _ k cb Hk [_ Hok].
    apply esc_or_bad in Hk as [[-> ->]|[-> ->]].
    + eexists. vm_compute. reflexivity.
    + vm_compute in Hok. discriminate Hok.
Qed.

Lemma listening_inv_preserved_witness :
  listening_inv running_hotkeys
  ∧ listening_inv (register "<ctrl>+h" 3%nat running_hotkeys)
  ∧ listening_inv (unregister "<ctrl>+h" running_hotkeys).2
  ∧ listening_inv (start running_hotkeys)
  ∧ listening_inv (stop running_hotkeys).
Proof.
  split; [exact running_hotkeys_inv|].
  exact (listening_inv_preserved running_hotkeys "<ctrl>+h" 3%nat
           running_hotkeys_inv).
Defined.

Lemma register_takes_effect_witness :
  listening_inv running_hotkeys
  ∧ _running running_hotkeys = true
  ∧ accepted (keyboard_lib running_hotkeys) "<Ctrl> + H"
  ∧ ∃ h, dict_get "<Ctrl> + H"
           (_handles (register "<Ctrl> + H" 3%nat running_hotkeys)) = Some h
         ∧ (h, ("ctrl+h", 3%nat))
             ∈ lib_hotkeys
                 (keyboard_lib (register "<Ctrl> + H" 3%nat running_hotkeys)).
Proof.
  assert (H1 : _running running_hotkeys = true) by (vm_compute; reflexivity).
  assert (H2 : accepted (keyboard_lib running_hotkeys) "<Ctrl> + H").
  { split; [intros H; vm_compute in H; discriminate H|].
    vm_compute. reflexivity. }
  split; [exact running_hotkeys_inv|]. split; [exact H1|].
  split; [exact H2|].
  destruct (register_takes_effect running_hotkeys "<Ctrl> + H" 3%nat
              running_hotkeys_inv) as (_ & _ & _ & P & _).
  exact (P H1 H2).
Defined.

Lemma unregister_outcome_witness :
  listening_inv running_hotkeys
  ∧ (unregister "<esc>" running_hotkeys).1 = true
  ∧ dict_get "<esc>" (_hotkeys (unregister "<esc>" running_hotkeys).2) = None
  ∧ dict_get "<esc>" (_handles (unregister "<esc>" running_hotkeys).2) = None
  ∧ dict_get "bad" (_hotkeys (unregister "<esc>" running_hotkeys).2)
    = Some 2%nat.
Proof.
  split; [exact running_hotkeys_inv|].
  destruct (unregister_outcome running_hotkeys "<esc>" running_hotkeys_inv)
    as (P1 & _ & P3 & P4 & P5 & _).
  split; [apply P1; eexists; vm_compute; reflexivity|].
  split; [exact P3|]. split; [exact P4|].
  rewrite P5 by discriminate. vm_compute. reflexivity.
Defined.

Lemma start_without_hotkeys_never_listens_witness :
  _running (new_manager sample_lib) = false
  ∧ _hotkeys (new_manager sample_lib) = []
  ∧ _running (register "<esc>" 1%nat (start (new_manager sample_lib))) = false
  ∧ _handles (register "<esc>" 1%nat (start (new_manager sample_lib))) = []
  ∧ keyboard_lib (register "<esc>" 1%nat (start (new_manager sample_lib)))
    = sample_lib.
Proof.
  split; [reflexivity|]. split; [reflexivity|].
  destruct (start_without_hotkeys_never_listens (new_manager sample_lib)
              "<esc>" 1%nat eq_refl eq_refl) as (P1 & P2 & P3 & _).
  split; [exact P1|]. split; [exact P2|exact P3].
Defined.

Lemma hotkey_start_then_stop_witness :
  _running stopped_hotkeys = false
  ∧ _handles stopped_hotkeys = []
  ∧ NoDup (_hotkeys stopped_hotkeys).*1
  ∧ fresh_handles (keyboard_lib stopped_hotkeys)
  ∧ lib_hotkeys (keyboard_lib (start stopped_hotkeys))
    = [(0%nat, ("f1", 7%nat)); (1%nat, ("esc", 1%nat))]
  ∧ lib_hotkeys (keyboard_lib (stop (start stopped_hotkeys)))
    = [(0%nat, ("f1", 7%nat))].
Proof.
  assert (H1 : _running stopped_hotkeys = false) by reflexivity.
  assert (H2 : _handles stopped_hotkeys = []) by reflexivity.
  assert (H3 : NoDup (_hotkeys stopped_hotkeys).*1)
    by (apply (bool_decide_unpack _); vm_compute; exact I).
  assert (H4 : fresh_handles (keyboard_lib stopped_hotkeys)).
  { intros e He. change (e ∈ [(0%nat, ("f1", 7%nat))]) in He.
    apply list_elem_of_singleton in He as ->. cbn. lia. }
  split; [exact H1|]. split; [exact H2|]. split; [exact H3|].
  split; [exact H4|]. split; [vm_compute; reflexivity|].
  destruct (hotkey_start_then_stop stopped_hotkeys H1 H2 H3 H4) as (P & _).
  exact P.
Defined.

End GlobalHotkeySamples.
